(** * Nordik assistant: the message send / receive lifecycle of [src/App.tsx]

    The development embeds the chat state of the [App] component and its
    action handlers as pure functions on an explicit application state, and
    proves the properties of the send / receive cycle of
    [handleSendMessage].

    Modelling conventions.
    - A JavaScript string is a [string]: its characters are read as UTF-16
      code units below 256, so [trim] removes the code units 9-13, 32 and
      160, the white space of that range.
    - [Date.now()] and [new Date().toISOString()] are readings of the
      environment; every reading a handler makes is an explicit argument.
    - [handleSendMessage] is an [async] function with one suspension point
      ([await fetch], or the timer of the mock mode).  It is split there:
      [send_begin] runs up to the [await] and leaves a [Pending] record with
      the values the closure captured, [send_settle] runs the rest against
      the state that is current when the promise settles (the setters that
      take [prev => ...] read that state, the captured constants do not).
    - A handler reads the state of the last render; React flushes the
      updates of a discrete event before the next event is dispatched, so a
      handler is modelled as reading the current state. *)

From Stdlib Require Import String Ascii List ZArith Lia Bool.
From Stdlib Require Import DecimalString DecimalZ.
Import ListNotations.
Local Open Scope string_scope.
Local Open Scope Z_scope.

(** ** JavaScript string primitives *)

Module Js.

(** Line feed and the double quote, the two characters of the source's
    literals that are written with an escape here. *)
Definition LF : string := String (ascii_of_nat 10) EmptyString.
Definition DQUOTE : string := String (ascii_of_nat 34) EmptyString.

(** White space and line terminators of ECMAScript among the code units
    below 256: TAB, LF, VT, FF, CR, SP and NBSP. *)
Definition is_ws (c : ascii) : bool :=
  let n := nat_of_ascii c in
  (Nat.leb 9 n && Nat.leb n 13) || Nat.eqb n 32 || Nat.eqb n 160.

Fixpoint trimStart (s : string) : string :=
  match s with
  | EmptyString => EmptyString
  | String c r => if is_ws c then trimStart r else s
  end.

Fixpoint trimEnd (s : string) : string :=
  match s with
  | EmptyString => EmptyString
  | String c r =>
      match trimEnd r with
      | EmptyString => if is_ws c then EmptyString else String c EmptyString
      | r' => String c r'
      end
  end.

(** [String.prototype.trim] *)
Definition trim (s : string) : string := trimEnd (trimStart s).

(** [s.substring(0, n)] *)
Definition substring0 (n : nat) (s : string) : string := substring 0 n s.

(** Truthiness of a string: every string but the empty one. *)
Definition truthy (s : string) : bool := negb (s =? "")%string.

(** [a || b] on strings *)
Definition or_else (a b : string) : string := if truthy a then a else b.

(** [Number.prototype.toString] on an integer (decimal digits, a leading
    minus sign for a negative one; the integers met here, HTTP status codes
    and millisecond clock readings, are far below the 1e21 from which
    JavaScript switches to the exponent form). *)
Definition Number_toString (z : Z) : string :=
  NilZero.string_of_int (Z.to_int z).

(** [hay.includes(needle)], as a proposition. *)
Definition includes (hay needle : string) : Prop :=
  exists pre post, hay = pre ++ needle ++ post.

End Js.

(** ** Data model ([src/types.ts]) *)

Module UserProfile.
Record t := mk
  { id : string; name : string; email : string; avatar_url : option string }.
End UserProfile.

Module Role.
Inductive t := user | assistant.
End Role.

Module Message.
Record t := mk
  { id : string;
    role : Role.t;
    content : string;
    created_at : string;
    disableAnimation : option bool }.
End Message.

Module Conversation.
Record t := mk
  { id : string; title : string; updated_at : string }.
End Conversation.

(** A trace of the dialogue service's response.  [message] is
    [trace.payload.message]; the code reads it only on a trace of type
    ["text"] or ["speak"]. *)
Module Trace.
Record t := mk { type : string; message : string }.
End Trace.

(** ** Application state: the [useState] cells of [App] *)

Record AppState := mkApp
  { user : option UserProfile.t;
    isLoginLoading : bool;
    conversations : list Conversation.t;
    activeConversationId : option string;
    messages : list Message.t;
    inputText : string;
    isSending : bool;
    isSidebarOpen : bool;
    isDarkMode : bool;
    isSettingsOpen : bool;
    apiKey : string;
    versionId : string }.

Definition initialState : AppState :=
  {| user := None; isLoginLoading := false; conversations := [];
     activeConversationId := None; messages := []; inputText := "";
     isSending := false; isSidebarOpen := false; isDarkMode := false;
     isSettingsOpen := false; apiKey := ""; versionId := "production" |}.

(** The setters. *)
Definition setUser v (s : AppState) :=
  mkApp v (isLoginLoading s) (conversations s) (activeConversationId s)
    (messages s) (inputText s) (isSending s) (isSidebarOpen s) (isDarkMode s)
    (isSettingsOpen s) (apiKey s) (versionId s).
Definition setIsLoginLoading v (s : AppState) :=
  mkApp (user s) v (conversations s) (activeConversationId s)
    (messages s) (inputText s) (isSending s) (isSidebarOpen s) (isDarkMode s)
    (isSettingsOpen s) (apiKey s) (versionId s).
Definition setConversations v (s : AppState) :=
  mkApp (user s) (isLoginLoading s) v (activeConversationId s)
    (messages s) (inputText s) (isSending s) (isSidebarOpen s) (isDarkMode s)
    (isSettingsOpen s) (apiKey s) (versionId s).
Definition setActiveConversationId v (s : AppState) :=
  mkApp (user s) (isLoginLoading s) (conversations s) v
    (messages s) (inputText s) (isSending s) (isSidebarOpen s) (isDarkMode s)
    (isSettingsOpen s) (apiKey s) (versionId s).
Definition setMessages v (s : AppState) :=
  mkApp (user s) (isLoginLoading s) (conversations s) (activeConversationId s)
    v (inputText s) (isSending s) (isSidebarOpen s) (isDarkMode s)
    (isSettingsOpen s) (apiKey s) (versionId s).
Definition setInputText v (s : AppState) :=
  mkApp (user s) (isLoginLoading s) (conversations s) (activeConversationId s)
    (messages s) v (isSending s) (isSidebarOpen s) (isDarkMode s)
    (isSettingsOpen s) (apiKey s) (versionId s).
Definition setIsSending v (s : AppState) :=
  mkApp (user s) (isLoginLoading s) (conversations s) (activeConversationId s)
    (messages s) (inputText s) v (isSidebarOpen s) (isDarkMode s)
    (isSettingsOpen s) (apiKey s) (versionId s).
Definition setIsSidebarOpen v (s : AppState) :=
  mkApp (user s) (isLoginLoading s) (conversations s) (activeConversationId s)
    (messages s) (inputText s) (isSending s) v (isDarkMode s)
    (isSettingsOpen s) (apiKey s) (versionId s).
Definition setIsDarkMode v (s : AppState) :=
  mkApp (user s) (isLoginLoading s) (conversations s) (activeConversationId s)
    (messages s) (inputText s) (isSending s) (isSidebarOpen s) v
    (isSettingsOpen s) (apiKey s) (versionId s).
Definition setIsSettingsOpen v (s : AppState) :=
  mkApp (user s) (isLoginLoading s) (conversations s) (activeConversationId s)
    (messages s) (inputText s) (isSending s) (isSidebarOpen s) (isDarkMode s)
    v (apiKey s) (versionId s).
Definition setApiKey v (s : AppState) :=
  mkApp (user s) (isLoginLoading s) (conversations s) (activeConversationId s)
    (messages s) (inputText s) (isSending s) (isSidebarOpen s) (isDarkMode s)
    (isSettingsOpen s) v (versionId s).
Definition setVersionId v (s : AppState) :=
  mkApp (user s) (isLoginLoading s) (conversations s) (activeConversationId s)
    (messages s) (inputText s) (isSending s) (isSidebarOpen s) (isDarkMode s)
    (isSettingsOpen s) (apiKey s) v.

(** [!id] on a [string | null]: [null] and the empty string are falsy. *)
Definition no_id (o : option string) : bool :=
  match o with
  | None => true
  | Some s => negb (Js.truthy s)
  end.

(** ** Constants of the source *)

Definition MOCK_USER : UserProfile.t :=
  UserProfile.mk "user-123" "Nordik Staff" "staff@nordikrecovery.com"
    (Some "https://picsum.photos/seed/nordik/200").

(** [INITIAL_MESSAGE]; its time stamp is read once, when the module loads. *)
Definition INITIAL_MESSAGE (loaded_at : string) : Message.t :=
  Message.mk "msg-0" Role.assistant
    "Hello! I am the Nordik Assistant. How can I help you with our protocols or products today?"
    loaded_at None.

Definition NO_TEXT_NOTICE : string :=
  "I received a response, but it contained no text. (Check console for traces)".

Definition MOCK_DELAY_MS : Z := 2000.

(** The template of the mock reply:
    [[MOCK MODE] You asked: "<text>". \n\nTo test your real agent, ...]. *)
Definition MOCK_HEAD : string := "[MOCK MODE] You asked: " ++ Js.DQUOTE.
Definition MOCK_TAIL : string :=
  Js.DQUOTE ++ ". " ++ Js.LF ++ Js.LF ++
  "To test your real agent, click the Settings gear in the sidebar and enter your Voiceflow API Key.".
Definition mock_reply (text : string) : string :=
  MOCK_HEAD ++ text ++ MOCK_TAIL.

(** The message of the [Error] thrown on a response that is not ok. *)
Definition vf_api_error (status : Z) (errorText : string) : string :=
  "VF API Error (" ++ Js.Number_toString status ++ "): " ++ errorText.

(** The content of the message appended by the [catch] block; [message] is
    [e.message]. *)
Definition error_reply (message : string) : string :=
  "Error connecting to Voiceflow: " ++ Js.or_else message "Unknown error" ++
  ". " ++ Js.LF ++ Js.LF ++ "Please check your API Key in Settings.".

(** ** The simple handlers *)

Definition handleLogin (s : AppState) : AppState := setIsLoginLoading true s.

(** The timer callback of [handleLogin], 1500 ms later. *)
Definition handleLogin_timeout (iso : string) (s : AppState) : AppState :=
  setConversations [Conversation.mk "conv-1" "Cold Plunge Specs" iso]
    (setIsLoginLoading false (setUser (Some MOCK_USER) s)).

Definition handleLogout (s : AppState) : AppState :=
  setActiveConversationId None
    (setMessages [] (setConversations [] (setUser None s))).

Definition handleNewChat (loaded_at : string) (s : AppState) : AppState :=
  setIsSidebarOpen false
    (setMessages [INITIAL_MESSAGE loaded_at] (setActiveConversationId None s)).

Definition handleSelectConversation (id iso1 iso2 : string) (s : AppState)
  : AppState :=
  setIsSidebarOpen false
    (setMessages
       [ Message.mk ("hist-" ++ id ++ "-1") Role.user
           "Previous question about durability..." iso1 None;
         Message.mk ("hist-" ++ id ++ "-2") Role.assistant
           "The durability standards for Nordik tubs are..." iso2 None ]
       (setActiveConversationId (Some id) s)).

Definition handleSaveSettings (loaded_at key ver : string) (s : AppState)
  : AppState :=
  let s' := setIsSettingsOpen false (setVersionId ver (setApiKey key s)) in
  if no_id (activeConversationId s)
  then setMessages [INITIAL_MESSAGE loaded_at] s'
  else s'.

Definition toggleTheme (s : AppState) : AppState :=
  setIsDarkMode (negb (isDarkMode s)) s.

(** [onTranscript] of the voice input:
    [setInputText(prev => prev + (prev ? ' ' : '') + text)]. *)
Definition onTranscript (text : string) (s : AppState) : AppState :=
  setInputText
    (inputText s ++ (if Js.truthy (inputText s) then " " else "") ++ text) s.

(** ** [handleSendMessage] *)

(** The request handed to [fetch].  [vfUserId] is the session key; the URL is
    [https://general-runtime.voiceflow.com/state/user/<key>/interact] with
    the key percent-encoded; the method is POST and the body is
    [{request: {type: "text", payload}}]. *)
Record Request := mkRequest
  { vfUserId : string;
    Authorization : string;
    versionID : string;
    payload : string }.

(** What the call is suspended on. *)
Inductive Await :=
| AwaitFetch (req : Request)
| AwaitTimer (ms : Z).

(** How the awaited network step ends.
    - [Rejected m]: an exception with message [m] is raised inside the [try]
      block without the code's own [throw]: [fetch] rejects, the body cannot
      be read or parsed, or the walk over the traces raises.
    - [NotOk status errorText]: a response with [response.ok] false.
    - [OkJson traces]: a response with [response.ok] true whose body parses
      to the array [traces].
    The timer of the mock mode always resolves; on it the outcome is not
    read. *)
Inductive Outcome :=
| Rejected (message : string)
| NotOk (status : Z) (errorText : string)
| OkJson (traces : list Trace.t).

(** The clock readings of the part before the [await]. *)
Record BeginEnv := mkBeginEnv
  { now_user : Z;          (* Date.now() of userMsg.id *)
    iso_user : string;     (* created_at of userMsg *)
    now_conv : Z }.        (* Date.now() of the minted conversation id *)

(** The outcome and the clock readings of the part after the [await]. *)
Record SettleEnv := mkSettleEnv
  { outcome : Outcome;
    now_reply : Z;         (* Date.now() of the assistant message id *)
    iso_reply : string;    (* created_at of the assistant message *)
    iso_conv : string }.   (* updated_at of the registered conversation *)

(** The constants of the closure that are live across the [await]. *)
Record Pending := mkPending
  { userMsg : Message.t;
    currentConversationId : string;
    activeConversationId_seen : option string;
    awaiting : Await }.

(** Steps 1 to 3 and the start of the network step.  [None]: the guard
    [if (!inputText.trim() || isSending) return;] returned early, nothing
    was done. *)
Definition send_begin (env : BeginEnv) (s : AppState)
  : option (AppState * Pending) :=
  if negb (Js.truthy (Js.trim (inputText s))) || isSending s then None
  else
    let userMsg :=
      Message.mk (Js.Number_toString (now_user env)) Role.user (inputText s)
        (iso_user env) None in
    let s1 :=
      setIsSending true
        (setInputText "" (setMessages (messages s ++ [userMsg]) s)) in
    let currentConversationId :=
      match activeConversationId s with
      | Some id => if Js.truthy id then id
                   else "conv-" ++ Js.Number_toString (now_conv env)
      | None => "conv-" ++ Js.Number_toString (now_conv env)
      end in
    let vfUserId := "user-" ++ currentConversationId in
    let awaiting :=
      if Js.truthy (apiKey s) then
        AwaitFetch
          {| vfUserId := vfUserId;
             Authorization := Js.trim (apiKey s);
             versionID := Js.or_else (Js.trim (versionId s)) "production";
             payload := Message.content userMsg |}
      else AwaitTimer MOCK_DELAY_MS in
    Some (s1, mkPending userMsg currentConversationId
                (activeConversationId s) awaiting).

(** The [forEach] over the traces. *)
Definition parse_traces (traces : list Trace.t) : string :=
  fold_left
    (fun assistantContent trace =>
       if (Trace.type trace =? "text")%string
          || (Trace.type trace =? "speak")%string
       then assistantContent ++ Trace.message trace ++ Js.LF
       else assistantContent)
    traces "".

(** The body of the [try] block up to step 4: the value of
    [assistantContent], or the message of the exception raised. *)
Definition try_content (p : Pending) (out : Outcome) : string + string :=
  match awaiting p with
  | AwaitTimer _ => inl (mock_reply (Message.content (userMsg p)))
  | AwaitFetch _ =>
      match out with
      | Rejected m => inr m
      | NotOk status errorText => inr (vf_api_error status errorText)
      | OkJson traces =>
          let assistantContent := parse_traces traces in
          inl (if Js.truthy assistantContent then assistantContent
               else NO_TEXT_NOTICE)
      end
  end.

(** The message appended once the network step is over. *)
Definition reply_message (p : Pending) (env : SettleEnv) : Message.t :=
  Message.mk (Js.Number_toString (now_reply env + 1)) Role.assistant
    (match try_content p (outcome env) with
     | inl assistantContent => Js.trim assistantContent
     | inr message => error_reply message
     end)
    (iso_reply env) None.

(** Steps 4 and 5, the [catch] block and the [finally] block, run on the
    state that is current when the awaited promise settles. *)
Definition send_settle (p : Pending) (env : SettleEnv) (s : AppState)
  : AppState :=
  let s1 := setMessages (messages s ++ [reply_message p env]) s in
  let s2 :=
    match try_content p (outcome env) with
    | inl _ =>
        if no_id (activeConversationId_seen p) then
          setConversations
            (Conversation.mk (currentConversationId p)
               (Js.substring0 30 (Message.content (userMsg p)) ++ "...")
               (iso_conv env)
             :: conversations s1)
            (setActiveConversationId (Some (currentConversationId p)) s1)
        else s1
    | inr _ => s1
    end in
  setIsSending false s2.

(** A call that runs to its end with no other event in between. *)
Definition handleSendMessage (b : BeginEnv) (e : SettleEnv) (s : AppState)
  : AppState :=
  match send_begin b s with
  | None => s
  | Some (s1, p) => send_settle p e s1
  end.

(** ** The session: handlers interleaved with pending sends *)

(** The application together with the calls of [handleSendMessage] that are
    suspended at their [await]. *)
Record Session := mkSession
  { app : AppState;
    inflight : list Pending }.

Definition initialSession : Session := mkSession initialState [].

Inductive Event :=
| EvLogin
| EvLoginTimeout (iso : string)
| EvLogout
| EvNewChat
| EvSelectConversation (id iso1 iso2 : string)
| EvSaveSettings (key ver : string)
| EvToggleTheme
| EvOpenSidebar (open : bool)
| EvOpenSettings (open : bool)
| EvInput (value : string)          (* onChange of the textarea *)
| EvTranscript (text : string)      (* the voice input *)
| EvSend (b : BeginEnv)             (* the send button or the Enter key *)
| EvSettle (k : nat) (e : SettleEnv). (* the k-th pending send resumes *)

Definition remove_nth {A} (k : nat) (l : list A) : list A :=
  firstn k l ++ skipn (S k) l.

Section Session.

(** The time stamp that [INITIAL_MESSAGE] got when the module was loaded. *)
Variable loaded_at : string.

Definition step (ev : Event) (x : Session) : Session :=
  let on_app f := mkSession (f (app x)) (inflight x) in
  match ev with
  | EvLogin => on_app handleLogin
  | EvLoginTimeout iso => on_app (handleLogin_timeout iso)
  | EvLogout => on_app handleLogout
  | EvNewChat => on_app (handleNewChat loaded_at)
  | EvSelectConversation id iso1 iso2 =>
      on_app (handleSelectConversation id iso1 iso2)
  | EvSaveSettings key ver => on_app (handleSaveSettings loaded_at key ver)
  | EvToggleTheme => on_app toggleTheme
  | EvOpenSidebar b => on_app (setIsSidebarOpen b)
  | EvOpenSettings b => on_app (setIsSettingsOpen b)
  | EvInput value => on_app (setInputText value)
  | EvTranscript text => on_app (onTranscript text)
  | EvSend b =>
      match send_begin b (app x) with
      | None => x
      | Some (s1, p) => mkSession s1 (inflight x ++ [p])
      end
  | EvSettle k e =>
      match nth_error (inflight x) k with
      | None => x
      | Some p =>
          mkSession (send_settle p e (app x)) (remove_nth k (inflight x))
      end
  end.

Definition run (evs : list Event) (x : Session) : Session :=
  fold_left (fun x ev => step ev x) evs x.

End Session.

(** ** Notions used by the statements *)

(** The reply text in the words of the adapter's contract: the messages of
    the traces of type ["text"] or ["speak"], in response order, joined with
    line feeds. *)
Definition is_spoken (trace : Trace.t) : bool :=
  (Trace.type trace =? "text")%string || (Trace.type trace =? "speak")%string.

Definition joined_text (traces : list Trace.t) : string :=
  String.concat Js.LF (map Trace.message (filter is_spoken traces)).

(** The ids of a transcript. *)
Definition ids (ms : list Message.t) : list string := map Message.id ms.

(** No id of the transcript is the decimal form of a number from [lo] on. *)
Definition ids_below (lo : Z) (ms : list Message.t) : Prop :=
  forall m z, In m ms -> lo <= z -> Message.id m <> Js.Number_toString z.

(** The busy flag counts the suspended calls: one when it is raised, none
    when it is lowered. *)
Definition flight_count (x : Session) : Prop :=
  length (inflight x) = if isSending (app x) then 1%nat else 0%nat.

(** What the [forEach] appends to an accumulator: every spoken message
    followed by a line feed. *)
Fixpoint lines (ms : list string) : string :=
  match ms with
  | [] => ""
  | m :: rest => m ++ Js.LF ++ lines rest
  end.

(** The call begun at [s] with readings [b] got past the guard and is
    suspended as [p], leaving the state [s1]. *)
Definition begun (b : BeginEnv) (s s1 : AppState) (p : Pending) : Prop :=
  send_begin b s = Some (s1, p).

(** ** Sample inputs *)

Module Sample.

Definition boot : string := "2024-05-01T08:00:00.000Z".

(** A fresh chat in mock mode with ["hello"] typed in. *)
Definition mock_state : AppState := setInputText "hello" initialState.

(** The same with a credential configured. *)
Definition live_state : AppState := setApiKey "VF.DM.key" mock_state.

Definition begin_at (t : Z) : BeginEnv :=
  mkBeginEnv t "2024-05-01T08:00:01.000Z" t.

Definition settle_at (t : Z) (out : Outcome) : SettleEnv :=
  mkSettleEnv out t "2024-05-01T08:00:03.000Z" "2024-05-01T08:00:03.001Z".

Definition hi_there : list Trace.t :=
  [Trace.mk "text" "Hi"; Trace.mk "speak" "there"].

Definition unauthorized : Outcome := NotOk 401 "unauthorized".

(** The state and the suspended call after [send_begin] at 1000 ms. *)
Definition live_begun : AppState * Pending :=
  match send_begin (begin_at 1000) live_state with
  | Some r => r
  | None => (live_state,
             mkPending (Message.mk "" Role.user "" "" None) "" None
               (AwaitTimer 0))
  end.

Definition mock_begun : AppState * Pending :=
  match send_begin (begin_at 1000) mock_state with
  | Some r => r
  | None => (mock_state,
             mkPending (Message.mk "" Role.user "" "" None) "" None
               (AwaitTimer 0))
  end.

End Sample.

(** ** What the view reads *)

(** [disabled] of the send button: [!inputText.trim() || isSending]. *)
Definition sendDisabled (s : AppState) : bool :=
  negb (Js.truthy (Js.trim (inputText s))) || isSending s.

(** [hasApiKey={!!apiKey}] of the sidebar, also the test behind the footer
    and the placeholder of the live mode. *)
Definition hasApiKey (s : AppState) : bool := Js.truthy (apiKey s).

(** [onKeyDown] of the textarea:
    [if (e.key === 'Enter' && !e.shiftKey) handleSendMessage()].  The result
    is the send event the key press raises, if it raises one. *)
Definition onKeyDown (key : string) (shiftKey : bool) (b : BeginEnv)
  : option Event :=
  if (key =? "Enter")%string && negb shiftKey then Some (EvSend b) else None.

(** ** Notions used by the further statements *)

(** The string has a character that [trim] keeps. *)
Fixpoint has_ink (s : string) : bool :=
  match s with
  | EmptyString => false
  | String c r => negb (Js.is_ws c) || has_ink r
  end.

(** The events that leave the transcript to [handleSendMessage]: all but
    the four handlers that replace it. *)
Definition keeps_transcript (ev : Event) : bool :=
  match ev with
  | EvLogout | EvNewChat | EvSelectConversation _ _ _ | EvSaveSettings _ _ =>
      false
  | _ => true
  end.

Definition keeps_settings (ev : Event) : bool :=
  match ev with
  | EvSaveSettings _ _ => false
  | _ => true
  end.

(** Reading roles in turn, a user message expected when the flag is set:
    the expectation after the last role, or [None] when two messages of one
    role follow each other. *)
Fixpoint walk (expect_user : bool) (rs : list Role.t) : option bool :=
  match rs with
  | [] => Some expect_user
  | Role.user :: rest => if expect_user then walk false rest else None
  | Role.assistant :: rest => if expect_user then None else walk true rest
  end.

(** A conversation id of the shape the code mints: [conv-] and a number. *)
Definition minted (id : string) : Prop :=
  exists z, id = "conv-" ++ Js.Number_toString z.

(** The suspended call will register its conversation id only if that id
    was minted. *)
Definition pending_minted (p : Pending) : Prop :=
  no_id (activeConversationId_seen p) = true ->
  minted (currentConversationId p).

(** The ids stamped along a session ascend.  A bound moves with the
    session: a send that gets past the guard stamps its user message with a
    reading at or above the bound, a call that settles stamps its reply with
    a reading whose successor is at or above the bound, and the bound then
    moves to one past the id just stamped.  A send that returns at its guard
    and a settlement with no suspended call stamp nothing and are not
    constrained. *)
Fixpoint stamps_ascend
    (loaded_at : string) (lo : Z) (evs : list Event) (x : Session) : Prop :=
  match evs with
  | [] => True
  | ev :: rest =>
      let x' := step loaded_at ev x in
      match ev with
      | EvSend b =>
          match send_begin b (app x) with
          | Some _ =>
              lo <= now_user b /\
              stamps_ascend loaded_at (now_user b + 1) rest x'
          | None => stamps_ascend loaded_at lo rest x'
          end
      | EvSettle k e =>
          match nth_error (inflight x) k with
          | Some _ =>
              lo <= now_reply e + 1 /\
              stamps_ascend loaded_at (now_reply e + 2) rest x'
          | None => stamps_ascend loaded_at lo rest x'
          end
      | _ => stamps_ascend loaded_at lo rest x'
      end
  end.

(** * Facts *)

(** ** Strings *)

Module JsFacts.
Import Js.

Lemma append_nil_r (s : string) : (s ++ "")%string = s.
Proof. induction s as [|c s IH]; simpl; [reflexivity | now rewrite IH]. Qed.

Lemma append_assoc (a b c : string) :
  ((a ++ b) ++ c)%string = (a ++ (b ++ c))%string.
Proof. induction a as [|x a IH]; simpl; [reflexivity | now rewrite IH]. Qed.

Lemma append_eq_nil (a b : string) :
  (a ++ b)%string = ""%string -> a = ""%string /\ b = ""%string.
Proof. destruct a; simpl; [auto | discriminate]. Qed.

Lemma append_inv_head (a b c : string) :
  (a ++ b)%string = (a ++ c)%string -> b = c.
Proof.
  induction a as [|x a IH]; simpl; intros H; [exact H|].
  injection H as H. auto.
Qed.

Lemma truthy_append_r (a b : string) :
  truthy b = true -> truthy (a ++ b) = true.
Proof.
  unfold truthy. destruct a; simpl; [auto | reflexivity].
Qed.

Lemma truthy_false (s : string) : truthy s = false -> s = ""%string.
Proof. destruct s; [reflexivity | discriminate]. Qed.

(** A trailing white space character does not survive [trimEnd]. *)
Lemma trimEnd_snoc_ws (s : string) (c : ascii) :
  is_ws c = true -> trimEnd (s ++ String c "") = trimEnd s.
Proof.
  intros Hc. induction s as [|a s IH]; simpl.
  - now rewrite Hc.
  - now rewrite IH.
Qed.

Lemma trim_snoc_ws (s : string) (c : ascii) :
  is_ws c = true -> trim (s ++ String c "") = trim s.
Proof.
  intros Hc. unfold trim. induction s as [|a s IH].
  - simpl. now rewrite Hc.
  - simpl. destruct (is_ws a) eqn:Ha; [exact IH|].
    change (String a (s ++ String c ""))%string
      with (String a s ++ String c "")%string.
    now apply trimEnd_snoc_ws.
Qed.

(** [trimEnd] leaves a string alone when its non-empty end does. *)
Lemma trimEnd_append_fixed (s t : string) :
  t <> ""%string -> trimEnd t = t -> trimEnd (s ++ t) = (s ++ t)%string.
Proof.
  intros Hne Ht. induction s as [|a s IH]; simpl; [exact Ht|].
  rewrite IH. destruct (s ++ t)%string eqn:E; [|reflexivity].
  apply append_eq_nil in E. tauto.
Qed.

Lemma includes_mid (a b c : string) : includes (a ++ b ++ c) b.
Proof. exists a, c. reflexivity. Qed.

Lemma includes_append_l (a h n : string) :
  includes h n -> includes (a ++ h) n.
Proof.
  intros (pre & post & ->). exists (a ++ pre)%string, post.
  now rewrite append_assoc.
Qed.

Lemma includes_append_r (h b n : string) :
  includes h n -> includes (h ++ b) n.
Proof.
  intros (pre & post & ->). exists pre, (post ++ b)%string.
  now rewrite !append_assoc.
Qed.

(** *** Decimal forms *)

Lemma to_int_proper (z : Z) :
  Z.to_int z <> Decimal.Pos Decimal.Nil /\
  Z.to_int z <> Decimal.Neg Decimal.Nil.
Proof.
  destruct z as [|p|p]; simpl; split; try discriminate;
    intros [= H]; now apply (DecimalPos.Unsigned.to_uint_nonnil p).
Qed.

Lemma Number_toString_read (z : Z) :
  NilZero.int_of_string (Number_toString z) = Some (Z.to_int z).
Proof.
  unfold Number_toString. destruct (to_int_proper z).
  now apply NilZero.isi.
Qed.

Lemma Number_toString_inj (z1 z2 : Z) :
  Number_toString z1 = Number_toString z2 -> z1 = z2.
Proof.
  intros H. apply DecimalZ.to_int_inj.
  pose proof (Number_toString_read z1) as H1.
  rewrite H, Number_toString_read in H1. now injection H1.
Qed.

(** A string that does not read as a decimal number is no decimal form. *)
Lemma not_a_number (s : string) (z : Z) :
  NilZero.int_of_string s = None -> s <> Number_toString z.
Proof.
  intros H ->. rewrite Number_toString_read in H. discriminate.
Qed.

End JsFacts.

(** ** The two halves of [handleSendMessage] *)

Lemma send_begin_guard (b : BeginEnv) (s : AppState) :
  send_begin b s = None <->
  (Js.truthy (Js.trim (inputText s)) = false \/ isSending s = true).
Proof.
  unfold send_begin.
  destruct (Js.truthy (Js.trim (inputText s))), (isSending s); simpl;
    split; intros H; try reflexivity; try discriminate; auto;
    destruct H; discriminate.
Qed.

Lemma begun_guard b s s1 p :
  begun b s s1 p ->
  Js.truthy (Js.trim (inputText s)) = true /\ isSending s = false.
Proof.
  unfold begun. intros H.
  destruct (Js.truthy (Js.trim (inputText s))) eqn:Ht,
           (isSending s) eqn:Hs; auto;
    assert (N : send_begin b s = None)
      by (apply send_begin_guard; auto);
    rewrite N in H; discriminate.
Qed.

Lemma guard_begun b s :
  Js.truthy (Js.trim (inputText s)) = true -> isSending s = false ->
  exists s1 p, begun b s s1 p.
Proof.
  intros Ht Hs. unfold begun.
  destruct (send_begin b s) as [[s1 p]|] eqn:E; [eauto|].
  apply send_begin_guard in E. destruct E; congruence.
Qed.

(** What the first half does to the state. *)
Lemma begun_state b s s1 p :
  begun b s s1 p ->
  s1 = setIsSending true
         (setInputText "" (setMessages (messages s ++ [userMsg p])%list s)).
Proof.
  intros H. destruct (begun_guard _ _ _ _ H) as [Ht Hs].
  unfold begun, send_begin in H. rewrite Ht, Hs in H. simpl in H.
  now injection H as <- <-.
Qed.

(** What the suspended call remembers. *)
Lemma begun_userMsg b s s1 p :
  begun b s s1 p ->
  userMsg p =
    Message.mk (Js.Number_toString (now_user b)) Role.user (inputText s)
      (iso_user b) None.
Proof.
  intros H. destruct (begun_guard _ _ _ _ H) as [Ht Hs].
  unfold begun, send_begin in H. rewrite Ht, Hs in H. simpl in H.
  now injection H as <- <-.
Qed.

Lemma begun_seen b s s1 p :
  begun b s s1 p -> activeConversationId_seen p = activeConversationId s.
Proof.
  intros H. destruct (begun_guard _ _ _ _ H) as [Ht Hs].
  unfold begun, send_begin in H. rewrite Ht, Hs in H. simpl in H.
  now injection H as <- <-.
Qed.

Lemma begun_minted b s s1 p :
  begun b s s1 p -> no_id (activeConversationId s) = true ->
  currentConversationId p = "conv-" ++ Js.Number_toString (now_conv b).
Proof.
  intros H Hn. destruct (begun_guard _ _ _ _ H) as [Ht Hs].
  unfold begun, send_begin in H. rewrite Ht, Hs in H. simpl in H.
  injection H as <- <-. simpl.
  destruct (activeConversationId s) as [id|]; [|reflexivity].
  simpl in Hn. now destruct (Js.truthy id).
Qed.

Lemma begun_live b s s1 p :
  begun b s s1 p -> Js.truthy (apiKey s) = true ->
  awaiting p =
    AwaitFetch
      {| vfUserId := "user-" ++ currentConversationId p;
         Authorization := Js.trim (apiKey s);
         versionID := Js.or_else (Js.trim (versionId s)) "production";
         payload := inputText s |}.
Proof.
  intros H Hk. destruct (begun_guard _ _ _ _ H) as [Ht Hs].
  unfold begun, send_begin in H. rewrite Ht, Hs, Hk in H. simpl in H.
  now injection H as <- <-.
Qed.

Lemma begun_mock b s s1 p :
  begun b s s1 p -> Js.truthy (apiKey s) = false ->
  awaiting p = AwaitTimer MOCK_DELAY_MS.
Proof.
  intros H Hk. destruct (begun_guard _ _ _ _ H) as [Ht Hs].
  unfold begun, send_begin in H. rewrite Ht, Hs, Hk in H. simpl in H.
  now injection H as <- <-.
Qed.

(** The second half appends one message, whatever the outcome, and lowers
    the busy flag. *)
Lemma settle_messages p e s :
  messages (send_settle p e s) = (messages s ++ [reply_message p e])%list.
Proof.
  unfold send_settle.
  destruct (try_content p (outcome e));
    [destruct (no_id (activeConversationId_seen p))|]; reflexivity.
Qed.

Lemma settle_isSending p e s : isSending (send_settle p e s) = false.
Proof. reflexivity. Qed.

Lemma settle_inputText p e s : inputText (send_settle p e s) = inputText s.
Proof.
  unfold send_settle.
  destruct (try_content p (outcome e));
    [destruct (no_id (activeConversationId_seen p))|]; reflexivity.
Qed.

Lemma reply_role p e : Message.role (reply_message p e) = Role.assistant.
Proof. reflexivity. Qed.

Lemma settle_failed p e s message :
  try_content p (outcome e) = inr message ->
  send_settle p e s =
    setIsSending false
      (setMessages (messages s ++ [reply_message p e])%list s) /\
  Message.content (reply_message p e) = error_reply message.
Proof.
  intros H. unfold send_settle, reply_message. now rewrite H.
Qed.

Lemma settle_succeeded p e s text :
  try_content p (outcome e) = inl text ->
  no_id (activeConversationId_seen p) = true ->
  conversations (send_settle p e s) =
    Conversation.mk (currentConversationId p)
      (Js.substring0 30 (Message.content (userMsg p)) ++ "...") (iso_conv e)
    :: conversations s /\
  activeConversationId (send_settle p e s) = Some (currentConversationId p).
Proof.
  intros H Hn. unfold send_settle. now rewrite H, Hn.
Qed.

(** ** C1 *)

(** C1. When the input is not empty after trimming and no send is in flight,
    the part of [handleSendMessage] before the network step appends one
    message of role user, carrying the input, to the transcript, and the
    part after it appends one message of role assistant, for every outcome
    of the network step and every state the call resumes in; a call that
    runs undisturbed turns the transcript [ms] into [ms ++ [u; a]]. *)
Theorem send_appends_user_then_assistant (s : AppState) (b : BeginEnv) :
  Js.truthy (Js.trim (inputText s)) = true ->
  isSending s = false ->
  exists s1 p u,
    send_begin b s = Some (s1, p) /\
    messages s1 = (messages s ++ [u])%list /\
    Message.role u = Role.user /\
    Message.content u = inputText s /\
    (forall e s2, exists a,
        messages (send_settle p e s2) = (messages s2 ++ [a])%list /\
        Message.role a = Role.assistant) /\
    (forall e, exists a,
        messages (handleSendMessage b e s) = (messages s ++ [u; a])%list /\
        Message.role a = Role.assistant).
Proof.
  intros Ht Hs. destruct (guard_begun b s Ht Hs) as (s1 & p & H).
  exists s1, p, (userMsg p). split; [exact H|].
  pose proof (begun_state _ _ _ _ H) as E1.
  pose proof (begun_userMsg _ _ _ _ H) as Eu.
  repeat split.
  - now rewrite E1.
  - now rewrite Eu.
  - now rewrite Eu.
  - intros e s2. exists (reply_message p e).
    split; [apply settle_messages | apply reply_role].
  - intros e. exists (reply_message p e). split; [|apply reply_role].
    unfold handleSendMessage. unfold begun in H. rewrite H.
    rewrite settle_messages, E1. simpl. now rewrite <- app_assoc.
Qed.

Lemma send_appends_user_then_assistant_witness :
  Js.truthy (Js.trim (inputText Sample.live_state)) = true /\
  isSending Sample.live_state = false /\
  exists s1 p u,
    send_begin (Sample.begin_at 1000) Sample.live_state = Some (s1, p) /\
    messages s1 = (messages Sample.live_state ++ [u])%list /\
    Message.role u = Role.user /\
    Message.content u = inputText Sample.live_state /\
    (forall e s2, exists a,
        messages (send_settle p e s2) = (messages s2 ++ [a])%list /\
        Message.role a = Role.assistant) /\
    (forall e, exists a,
        messages (handleSendMessage (Sample.begin_at 1000) e Sample.live_state)
        = (messages Sample.live_state ++ [u; a])%list /\
        Message.role a = Role.assistant).
Proof.
  split; [reflexivity|]. split; [reflexivity|].
  apply (send_appends_user_then_assistant Sample.live_state
           (Sample.begin_at 1000)); reflexivity.
Defined.

(** ** The single-flight guard *)

Lemma step_flight_count loaded_at ev x :
  flight_count x -> flight_count (step loaded_at ev x).
Proof.
  unfold flight_count. intros H.
  destruct ev; simpl; try exact H.
  - (* save settings *)
    unfold handleSaveSettings.
    now destruct (no_id (activeConversationId (app x))).
  - (* send *)
    destruct (send_begin b (app x)) as [[s1 p]|] eqn:E; [|exact H].
    destruct (begun_guard _ _ _ _ E) as [_ Hs].
    rewrite (begun_state _ _ _ _ E). simpl.
    rewrite Hs in H. rewrite length_app, H. reflexivity.
  - (* settle *)
    destruct (nth_error (inflight x) k) as [p|] eqn:E; [|exact H].
    simpl.
    destruct (isSending (app x)).
    + destruct (inflight x) as [|q [|q' l]]; try discriminate.
      destruct k as [|[|k]]; try discriminate; reflexivity.
    + destruct (inflight x); [destruct k|]; discriminate.
Qed.

Lemma run_flight_count loaded_at evs x :
  flight_count x -> flight_count (run loaded_at evs x).
Proof.
  revert x. induction evs as [|ev evs IH]; intros x H; simpl; [exact H|].
  apply IH, step_flight_count, H.
Qed.

Lemma single_flight loaded_at evs :
  (length (inflight (run loaded_at evs initialSession)) <= 1)%nat.
Proof.
  pose proof (run_flight_count loaded_at evs initialSession eq_refl) as H.
  unfold flight_count in H. rewrite H.
  destruct (isSending _); auto.
Qed.

(** ** C2 *)

(** C2. While the busy flag is raised, [handleSendMessage] returns at its
    guard: no state cell changes and no call is suspended, whatever the
    session it is invoked in; and in every session reachable from the
    initial one at most one send is in flight. *)
Theorem send_while_busy_is_noop
    (loaded_at : string) (x : Session) (b : BeginEnv) :
  isSending (app x) = true ->
  send_begin b (app x) = None /\
  (forall e, handleSendMessage b e (app x) = app x) /\
  step loaded_at (EvSend b) x = x /\
  (forall evs,
      (length (inflight (run loaded_at evs initialSession)) <= 1)%nat).
Proof.
  intros Hs.
  assert (N : send_begin b (app x) = None)
    by (apply send_begin_guard; auto).
  repeat split.
  - exact N.
  - intros e. unfold handleSendMessage. now rewrite N.
  - simpl. now rewrite N.
  - intros evs. apply single_flight.
Qed.

Lemma send_while_busy_is_noop_witness :
  let x := mkSession (fst Sample.live_begun) [snd Sample.live_begun] in
  let x' := mkSession (setInputText "again" (app x)) (inflight x) in
  isSending (app x') = true /\
  send_begin (Sample.begin_at 1200) (app x') = None /\
  (forall e, handleSendMessage (Sample.begin_at 1200) e (app x') = app x') /\
  step Sample.boot (EvSend (Sample.begin_at 1200)) x' = x' /\
  (forall evs,
      (length (inflight (run Sample.boot evs initialSession)) <= 1)%nat).
Proof.
  intros x x'. split; [reflexivity|].
  apply (send_while_busy_is_noop Sample.boot x' (Sample.begin_at 1200)).
  reflexivity.
Defined.

(** ** C3 *)

(** C3. A call that got past the guard raises the busy flag before the
    network step and lowers it when it completes, for every outcome and from
    every state it resumes in; after that the guard lets a new non-empty
    input through. *)
Theorem busy_flag_released (s s1 : AppState) (b : BeginEnv) (p : Pending) :
  send_begin b s = Some (s1, p) ->
  isSending s1 = true /\
  (forall e s2, isSending (send_settle p e s2) = false) /\
  (forall e, isSending (handleSendMessage b e s) = false) /\
  (forall e s2 b',
      Js.truthy (Js.trim (inputText (send_settle p e s2))) = true ->
      send_begin b' (send_settle p e s2) <> None).
Proof.
  intros H. repeat split.
  - now rewrite (begun_state _ _ _ _ H).
  - intros e. unfold handleSendMessage. now rewrite H.
  - intros e s2 b' Ht N. apply send_begin_guard in N.
    rewrite settle_isSending in N. destruct N; congruence.
Qed.

Lemma busy_flag_released_witness :
  send_begin (Sample.begin_at 1000) Sample.live_state
  = Some Sample.live_begun /\
  isSending (fst Sample.live_begun) = true /\
  (forall e s2, isSending (send_settle (snd Sample.live_begun) e s2) = false) /\
  (forall e,
      isSending (handleSendMessage (Sample.begin_at 1000) e Sample.live_state)
      = false) /\
  (forall e s2 b',
      Js.truthy
        (Js.trim (inputText (send_settle (snd Sample.live_begun) e s2)))
      = true ->
      send_begin b' (send_settle (snd Sample.live_begun) e s2) <> None).
Proof.
  split; [reflexivity|].
  apply (busy_flag_released Sample.live_state (fst Sample.live_begun)
           (Sample.begin_at 1000) (snd Sample.live_begun)).
  reflexivity.
Defined.

(** ** C7 *)

(** C7. When the input is empty after trimming, [handleSendMessage] returns
    at its guard: nothing is appended, no call is suspended on the network
    or on a timer, and every state cell, the busy flag and the input buffer
    among them, keeps its value. *)
Theorem blank_input_is_ignored
    (loaded_at : string) (x : Session) (b : BeginEnv) :
  Js.trim (inputText (app x)) = "" ->
  send_begin b (app x) = None /\
  (forall e, handleSendMessage b e (app x) = app x) /\
  step loaded_at (EvSend b) x = x.
Proof.
  intros Hb.
  assert (N : send_begin b (app x) = None)
    by (apply send_begin_guard; left; now rewrite Hb).
  repeat split.
  - exact N.
  - intros e. unfold handleSendMessage. now rewrite N.
  - simpl. now rewrite N.
Qed.

Lemma blank_input_is_ignored_witness :
  let x := mkSession (setInputText "   " initialState) [] in
  Js.trim (inputText (app x)) = "" /\
  send_begin (Sample.begin_at 1000) (app x) = None /\
  (forall e, handleSendMessage (Sample.begin_at 1000) e (app x) = app x) /\
  step Sample.boot (EvSend (Sample.begin_at 1000)) x = x.
Proof.
  intros x. split; [reflexivity|].
  apply (blank_input_is_ignored Sample.boot x (Sample.begin_at 1000)).
  reflexivity.
Defined.

(** ** The reply text *)

Lemma parse_traces_acc (traces : list Trace.t) (acc : string) :
  fold_left
    (fun assistantContent trace =>
       if (Trace.type trace =? "text")%string
          || (Trace.type trace =? "speak")%string
       then assistantContent ++ Trace.message trace ++ Js.LF
       else assistantContent)
    traces acc
  = acc ++ lines (map Trace.message (filter is_spoken traces)).
Proof.
  revert acc. induction traces as [|t traces IH]; intros acc; simpl.
  - now rewrite JsFacts.append_nil_r.
  - rewrite IH. unfold is_spoken at 2.
    destruct ((Trace.type t =? "text")%string
              || (Trace.type t =? "speak")%string); [|reflexivity].
    simpl. now rewrite !JsFacts.append_assoc.
Qed.

Lemma parse_traces_lines (traces : list Trace.t) :
  parse_traces traces = lines (map Trace.message (filter is_spoken traces)).
Proof. unfold parse_traces. now rewrite parse_traces_acc. Qed.

(** The accumulated lines are the joined text and one more line feed. *)
Lemma lines_concat (m : string) (ms : list string) :
  lines (m :: ms) = String.concat Js.LF (m :: ms) ++ Js.LF.
Proof.
  revert m. induction ms as [|m' ms IH]; intros m.
  - reflexivity.
  - change (lines (m :: m' :: ms)) with (m ++ Js.LF ++ lines (m' :: ms)).
    rewrite IH.
    change (String.concat Js.LF (m :: m' :: ms))
      with (m ++ Js.LF ++ String.concat Js.LF (m' :: ms)).
    now rewrite !JsFacts.append_assoc.
Qed.

Lemma filter_spoken_nil (traces : list Trace.t) :
  existsb is_spoken traces = false -> filter is_spoken traces = [].
Proof.
  induction traces as [|t traces IH]; simpl; [reflexivity|].
  destruct (is_spoken t); simpl; [discriminate | exact IH].
Qed.

Lemma filter_spoken_cons (traces : list Trace.t) :
  existsb is_spoken traces = true ->
  exists t rest, filter is_spoken traces = t :: rest.
Proof.
  induction traces as [|t traces IH]; simpl; [discriminate|].
  destruct (is_spoken t); simpl; eauto.
Qed.

(** The text of a successful reply, before and after trimming. *)
Lemma reply_text (traces : list Trace.t) :
  Js.trim
    (if Js.truthy (parse_traces traces) then parse_traces traces
     else NO_TEXT_NOTICE)
  = if existsb is_spoken traces then Js.trim (joined_text traces)
    else NO_TEXT_NOTICE.
Proof.
  rewrite parse_traces_lines. unfold joined_text.
  destruct (existsb is_spoken traces) eqn:E.
  - destruct (filter_spoken_cons _ E) as (t & rest & ->).
    cbn [map]. rewrite lines_concat.
    rewrite JsFacts.truthy_append_r by reflexivity.
    now apply JsFacts.trim_snoc_ws.
  - rewrite (filter_spoken_nil _ E). reflexivity.
Qed.

(** The mock reply begins with a bracket and ends with a full stop. *)
Lemma trim_mock_reply (text : string) :
  Js.trim (mock_reply text) = mock_reply text.
Proof.
  unfold Js.trim, mock_reply.
  change (Js.trimStart (MOCK_HEAD ++ text ++ MOCK_TAIL))
    with (MOCK_HEAD ++ text ++ MOCK_TAIL).
  rewrite <- JsFacts.append_assoc.
  apply JsFacts.trimEnd_append_fixed; [discriminate | reflexivity].
Qed.

(** ** C4 *)

(** C4. With a credential configured and a successful response, the content
    of the assistant message is the trimmed join, by line feeds and in
    response order, of the messages of the traces of type text or speak; when
    the response has no such trace it is the fixed notice. *)
Theorem reply_is_joined_traces
    (s s1 : AppState) (b : BeginEnv) (p : Pending) (e : SettleEnv)
    (traces : list Trace.t) :
  Js.truthy (apiKey s) = true ->
  send_begin b s = Some (s1, p) ->
  outcome e = OkJson traces ->
  Message.content (reply_message p e)
  = (if existsb is_spoken traces then Js.trim (joined_text traces)
     else NO_TEXT_NOTICE) /\
  Message.role (reply_message p e) = Role.assistant /\
  (forall s2,
      messages (send_settle p e s2)
      = (messages s2 ++ [reply_message p e])%list).
Proof.
  intros Hk H Ho. split; [|split; [reflexivity | intros; apply settle_messages]].
  unfold reply_message, try_content.
  rewrite (begun_live _ _ _ _ H Hk), Ho. cbn [Message.content].
  apply reply_text.
Qed.

(** The traces [Hi] and [there] of the contract's example give the content
    [Hi], a line feed, [there]. *)
Lemma reply_is_joined_traces_witness :
  let e := Sample.settle_at 1500 (OkJson Sample.hi_there) in
  let p := snd Sample.live_begun in
  Js.truthy (apiKey Sample.live_state) = true /\
  Message.content (reply_message p e) = "Hi" ++ Js.LF ++ "there" /\
  Message.role (reply_message p e) = Role.assistant /\
  (forall s2,
      messages (send_settle p e s2)
      = (messages s2 ++ [reply_message p e])%list).
Proof.
  intros e p. split; [reflexivity|].
  apply (reply_is_joined_traces Sample.live_state (fst Sample.live_begun)
           (Sample.begin_at 1000) p e Sample.hi_there); reflexivity.
Defined.

(** ** C5 *)

(** C5. On a response that is not ok the exception raised is caught: the
    call still appends one message of role assistant, whose content includes
    the decimal status code and the raw body of the response, and lowers the
    busy flag. *)
Theorem http_error_is_reported
    (s s1 : AppState) (b : BeginEnv) (p : Pending) (e : SettleEnv)
    (status : Z) (errorText : string) :
  Js.truthy (apiKey s) = true ->
  send_begin b s = Some (s1, p) ->
  outcome e = NotOk status errorText ->
  Message.role (reply_message p e) = Role.assistant /\
  Js.includes (Message.content (reply_message p e))
    (Js.Number_toString status) /\
  Js.includes (Message.content (reply_message p e)) errorText /\
  (forall s2,
      send_settle p e s2
      = setIsSending false
          (setMessages (messages s2 ++ [reply_message p e])%list s2)).
Proof.
  intros Hk H Ho.
  assert (T : try_content p (outcome e) = inr (vf_api_error status errorText)).
  { unfold try_content. now rewrite (begun_live _ _ _ _ H Hk), Ho. }
  assert (C : Message.content (reply_message p e)
              = error_reply (vf_api_error status errorText))
    by (apply (settle_failed p e s _ T)).
  split; [reflexivity|]. rewrite C.
  assert (Tr : Js.truthy (vf_api_error status errorText) = true)
    by reflexivity.
  unfold error_reply, Js.or_else. rewrite Tr. unfold vf_api_error.
  repeat split.
  - apply JsFacts.includes_append_l, JsFacts.includes_append_r.
    apply JsFacts.includes_mid.
  - apply JsFacts.includes_append_l, JsFacts.includes_append_r.
    exists ("VF API Error (" ++ Js.Number_toString status ++ "): "), "".
    now rewrite JsFacts.append_nil_r, !JsFacts.append_assoc.
  - intros s2. apply (settle_failed p e s2 _ T).
Qed.

(** A 401 with the body [unauthorized]. *)
Lemma http_error_is_reported_witness :
  let e := Sample.settle_at 1500 Sample.unauthorized in
  let p := snd Sample.live_begun in
  Js.truthy (apiKey Sample.live_state) = true /\
  Message.role (reply_message p e) = Role.assistant /\
  Js.includes (Message.content (reply_message p e)) "401" /\
  Js.includes (Message.content (reply_message p e)) "unauthorized" /\
  (forall s2,
      send_settle p e s2
      = setIsSending false
          (setMessages (messages s2 ++ [reply_message p e])%list s2)).
Proof.
  intros e p. split; [reflexivity|].
  apply (http_error_is_reported Sample.live_state (fst Sample.live_begun)
           (Sample.begin_at 1000) p e 401 "unauthorized"); reflexivity.
Defined.

(** ** C9 *)

(** C9. With no credential configured the call is suspended on the timer of
    2000 ms and on no request; when the timer fires it appends one message of
    role assistant whose content is the mock template around the input, so
    it includes the input as typed and the mock-mode notice. *)
Theorem mock_mode_echoes_input
    (s s1 : AppState) (b : BeginEnv) (p : Pending) :
  apiKey s = "" ->
  send_begin b s = Some (s1, p) ->
  awaiting p = AwaitTimer 2000 /\
  (forall e,
      Message.role (reply_message p e) = Role.assistant /\
      Message.content (reply_message p e) = mock_reply (inputText s) /\
      Js.includes (Message.content (reply_message p e)) (inputText s) /\
      Js.includes (Message.content (reply_message p e)) "[MOCK MODE]") /\
  (forall e s2,
      messages (send_settle p e s2)
      = (messages s2 ++ [reply_message p e])%list).
Proof.
  intros Hk H.
  assert (A : awaiting p = AwaitTimer MOCK_DELAY_MS)
    by (apply (begun_mock _ _ _ _ H); now rewrite Hk).
  split; [exact A|]. split; [|intros; apply settle_messages].
  intros e.
  assert (C : Message.content (reply_message p e) = mock_reply (inputText s)).
  { unfold reply_message, try_content. rewrite A. cbn [Message.content].
    rewrite (begun_userMsg _ _ _ _ H). cbn [Message.content].
    apply trim_mock_reply. }
  split; [reflexivity|]. split; [exact C|]. rewrite C. split.
  - apply JsFacts.includes_mid.
  - exists "", (" You asked: " ++ Js.DQUOTE ++ inputText s ++ MOCK_TAIL).
    reflexivity.
Qed.

Lemma mock_mode_echoes_input_witness :
  let p := snd Sample.mock_begun in
  apiKey Sample.mock_state = "" /\
  awaiting p = AwaitTimer 2000 /\
  (forall e,
      Message.role (reply_message p e) = Role.assistant /\
      Message.content (reply_message p e) = mock_reply "hello" /\
      Js.includes (Message.content (reply_message p e)) "hello" /\
      Js.includes (Message.content (reply_message p e)) "[MOCK MODE]") /\
  (forall e s2,
      messages (send_settle p e s2)
      = (messages s2 ++ [reply_message p e])%list).
Proof.
  intros p. split; [reflexivity|].
  apply (mock_mode_echoes_input Sample.mock_state (fst Sample.mock_begun)
           (Sample.begin_at 1000) p); reflexivity.
Defined.

(** ** C6 *)

Lemma try_content_mock p out :
  awaiting p = AwaitTimer MOCK_DELAY_MS ->
  try_content p out = inl (mock_reply (Message.content (userMsg p))).
Proof. unfold try_content. now intros ->. Qed.

Lemma try_content_live p req out :
  awaiting p = AwaitFetch req ->
  try_content p out =
    match out with
    | Rejected m => inr m
    | NotOk status errorText => inr (vf_api_error status errorText)
    | OkJson traces =>
        inl (if Js.truthy (parse_traces traces) then parse_traces traces
             else NO_TEXT_NOTICE)
    end.
Proof. unfold try_content. now intros ->. Qed.

(** C6, as stated, fails: the first message of a new chat, answered by a
    401, leaves the registry as it was. *)
Lemma first_send_failure_registers_nothing :
  let s := Sample.live_state in
  let e := Sample.settle_at 1500 Sample.unauthorized in
  no_id (activeConversationId s) = true /\
  Js.truthy (Js.trim (inputText s)) = true /\
  isSending s = false /\
  conversations (handleSendMessage (Sample.begin_at 1000) e s)
  = conversations s /\
  ~ (exists c,
        conversations (handleSendMessage (Sample.begin_at 1000) e s)
        = c :: conversations s).
Proof.
  intros s e. repeat split. intros [c H]. discriminate H.
Qed.

(** C6, amended. The first message sent while no conversation is active,
    when the network step does not fail (mock mode, or a successful
    response), registers one new conversation summary at the head of the
    registry; its title is the first 30 characters of the user's text
    followed by three full stops, and it becomes the active conversation. *)
Theorem first_send_registers_conversation
    (s s1 : AppState) (b : BeginEnv) (p : Pending) (e : SettleEnv) :
  no_id (activeConversationId s) = true ->
  send_begin b s = Some (s1, p) ->
  (apiKey s = "" \/ exists traces, outcome e = OkJson traces) ->
  let summary :=
    Conversation.mk ("conv-" ++ Js.Number_toString (now_conv b))
      (substring 0 30 (inputText s) ++ "...") (iso_conv e) in
  (forall s2,
      conversations (send_settle p e s2) = summary :: conversations s2 /\
      activeConversationId (send_settle p e s2)
      = Some (Conversation.id summary)) /\
  conversations (handleSendMessage b e s) = summary :: conversations s.
Proof.
  intros Hn H Hok summary.
  assert (T : exists text, try_content p (outcome e) = inl text).
  { destruct (Js.truthy (apiKey s)) eqn:Hk.
    - destruct Hok as [Hk' | [traces Ho]].
      + rewrite Hk' in Hk. discriminate.
      + rewrite (try_content_live _ _ _ (begun_live _ _ _ _ H Hk)), Ho.
        eauto.
    - rewrite (try_content_mock _ _ (begun_mock _ _ _ _ H Hk)). eauto. }
  destruct T as [text T].
  assert (Hseen : no_id (activeConversationId_seen p) = true)
    by now rewrite (begun_seen _ _ _ _ H).
  assert (S : forall s2,
             conversations (send_settle p e s2) = summary :: conversations s2 /\
             activeConversationId (send_settle p e s2)
             = Some (Conversation.id summary)).
  { intros s2. destruct (settle_succeeded p e s2 text T Hseen) as [Hc Ha].
    rewrite Hc, Ha. unfold summary, Js.substring0.
    rewrite (begun_minted _ _ _ _ H Hn), (begun_userMsg _ _ _ _ H).
    split; reflexivity. }
  split; [exact S|].
  unfold handleSendMessage. rewrite H.
  destruct (S s1) as [-> _]. now rewrite (begun_state _ _ _ _ H).
Qed.

Lemma first_send_registers_conversation_witness :
  let e := Sample.settle_at 1500 (OkJson Sample.hi_there) in
  let p := snd Sample.live_begun in
  let summary :=
    Conversation.mk "conv-1000" "hello..." "2024-05-01T08:00:03.001Z" in
  no_id (activeConversationId Sample.live_state) = true /\
  (apiKey Sample.live_state = "" \/
   exists traces, outcome e = OkJson traces) /\
  (forall s2,
      conversations (send_settle p e s2) = summary :: conversations s2 /\
      activeConversationId (send_settle p e s2)
      = Some (Conversation.id summary)) /\
  conversations (handleSendMessage (Sample.begin_at 1000) e Sample.live_state)
  = summary :: conversations Sample.live_state.
Proof.
  intros e p summary. split; [reflexivity|].
  split; [right; exists Sample.hi_there; reflexivity|].
  apply (first_send_registers_conversation Sample.live_state
           (fst Sample.live_begun) (Sample.begin_at 1000) p e);
    [reflexivity | reflexivity | right; exists Sample.hi_there; reflexivity].
Defined.

(** A text of 36 characters is cut after the thirtieth. *)
Example title_is_truncated :
  conversations
    (handleSendMessage (Sample.begin_at 1000)
       (Sample.settle_at 3000 (OkJson []))
       (setInputText "How cold should the plunge water be?" initialState))
  = [Conversation.mk "conv-1000" "How cold should the plunge wat..."
       "2024-05-01T08:00:03.001Z"].
Proof. reflexivity. Qed.

(** ** C10 *)

(** C10, as stated, fails: the retry of a failed first turn mints the
    conversation id of the failed turn again, and with it the same session
    key, when the clock reads the same at both turns. *)
Lemma retry_may_reuse_conversation_id :
  let s := Sample.live_state in
  let e := Sample.settle_at 1000 Sample.unauthorized in
  let s3 := handleSendMessage (Sample.begin_at 1000) e s in
  let retry := send_begin (Sample.begin_at 1000) (setInputText "hello" s3) in
  no_id (activeConversationId s) = true /\
  conversations s3 = conversations s /\
  exists r p',
    retry = Some (r, p') /\
    currentConversationId p' = currentConversationId (snd Sample.live_begun) /\
    awaiting p' = awaiting (snd Sample.live_begun) /\
    awaiting p' =
      AwaitFetch (mkRequest "user-conv-1000" "VF.DM.key" "production" "hello").
Proof.
  intros s e s3 retry. split; [reflexivity|]. split; [reflexivity|].
  unfold retry.
  destruct (send_begin (Sample.begin_at 1000) (setInputText "hello" s3))
    as [[r p']|] eqn:E; [|discriminate E].
  exists r, p'. vm_compute in E. injection E as <- <-.
  repeat split.
Qed.

(** C10, amended. When the first turn of a new chat fails, the error message
    is appended after the user message, the registry and the active
    conversation id keep the values they had, and a retry mints its
    conversation id from its own clock reading; that id, and the session key
    made of it, differ from those of the failed turn whenever the clock
    reading of the retry differs from the reading of the failed turn. *)
Theorem failed_first_turn_discards_conversation
    (s s1 : AppState) (b : BeginEnv) (p : Pending) (e : SettleEnv) :
  no_id (activeConversationId s) = true ->
  Js.truthy (apiKey s) = true ->
  send_begin b s = Some (s1, p) ->
  (forall traces, outcome e <> OkJson traces) ->
  let s3 := handleSendMessage b e s in
  (exists message,
      messages s3 = (messages s ++ [userMsg p; reply_message p e])%list /\
      Message.content (reply_message p e) = error_reply message) /\
  conversations s3 = conversations s /\
  activeConversationId s3 = activeConversationId s /\
  (forall b' text r p',
      send_begin b' (setInputText text s3) = Some (r, p') ->
      currentConversationId p' = "conv-" ++ Js.Number_toString (now_conv b') /\
      (now_conv b' <> now_conv b ->
       currentConversationId p' <> currentConversationId p /\
       forall req req',
         awaiting p = AwaitFetch req -> awaiting p' = AwaitFetch req' ->
         vfUserId req' <> vfUserId req)).
Proof.
  intros Hn Hk H Hfail s3.
  assert (T : exists message, try_content p (outcome e) = inr message).
  { rewrite (try_content_live _ _ _ (begun_live _ _ _ _ H Hk)).
    destruct (outcome e) as [m|st tx|traces]; eauto.
    now destruct (Hfail traces). }
  destruct T as [message T].
  assert (E3 : s3 = setIsSending false
                      (setMessages (messages s1 ++ [reply_message p e]) s1)).
  { unfold s3, handleSendMessage. rewrite H.
    apply (settle_failed p e s1 _ T). }
  pose proof (begun_state _ _ _ _ H) as E1.
  split; [|split; [|split]].
  - exists message. split; [|apply (settle_failed p e s1 _ T)].
    rewrite E3, E1. simpl. now rewrite <- app_assoc.
  - now rewrite E3, E1.
  - now rewrite E3, E1.
  - intros b' text r p' H'.
    assert (Hn' : no_id (activeConversationId (setInputText text s3)) = true)
      by (rewrite E3, E1; exact Hn).
    pose proof (begun_minted _ _ _ _ H' Hn') as M'.
    pose proof (begun_minted _ _ _ _ H Hn) as M.
    split; [exact M'|]. intros Hclock.
    assert (D : currentConversationId p' <> currentConversationId p).
    { rewrite M, M'. intros Heq.
      apply JsFacts.append_inv_head, JsFacts.Number_toString_inj in Heq.
      contradiction. }
    split; [exact D|]. intros req req' A A'.
    rewrite (begun_live _ _ _ _ H Hk) in A. injection A as <-.
    assert (Hk' : Js.truthy (apiKey (setInputText text s3)) = true)
      by (rewrite E3, E1; exact Hk).
    rewrite (begun_live _ _ _ _ H' Hk') in A'. injection A' as <-.
    simpl. intros [= Heq]. contradiction.
Qed.

Lemma failed_first_turn_discards_conversation_witness :
  let s := Sample.live_state in
  let p := snd Sample.live_begun in
  let e := Sample.settle_at 1500 Sample.unauthorized in
  let s3 := handleSendMessage (Sample.begin_at 1000) e s in
  no_id (activeConversationId s) = true /\
  Js.truthy (apiKey s) = true /\
  (forall traces, outcome e <> OkJson traces) /\
  (exists message,
      messages s3 = (messages s ++ [userMsg p; reply_message p e])%list /\
      Message.content (reply_message p e) = error_reply message) /\
  conversations s3 = conversations s /\
  activeConversationId s3 = activeConversationId s /\
  (forall b' text r p',
      send_begin b' (setInputText text s3) = Some (r, p') ->
      currentConversationId p' = "conv-" ++ Js.Number_toString (now_conv b') /\
      (now_conv b' <> now_conv (Sample.begin_at 1000) ->
       currentConversationId p' <> currentConversationId p /\
       forall req req',
         awaiting p = AwaitFetch req -> awaiting p' = AwaitFetch req' ->
         vfUserId req' <> vfUserId req)).
Proof.
  intros s p e s3.
  split; [reflexivity|]. split; [reflexivity|]. split; [discriminate|].
  apply (failed_first_turn_discards_conversation s (fst Sample.live_begun)
           (Sample.begin_at 1000) p e);
    [reflexivity | reflexivity | reflexivity | discriminate].
Defined.

(** ** C8 *)

(** The ids that are not minted from the clock are no decimal forms. *)
Lemma initial_id_not_a_number (loaded_at : string) (z : Z) :
  Message.id (INITIAL_MESSAGE loaded_at) <> Js.Number_toString z.
Proof. apply JsFacts.not_a_number. reflexivity. Qed.

Lemma hist_id_not_a_number (rest : string) (z : Z) :
  "hist-" ++ rest <> Js.Number_toString z.
Proof.
  apply JsFacts.not_a_number. simpl.
  unfold NilZero.uint_of_string, NilEmpty.uint_of_string.
  fold NilEmpty.uint_of_string.
  unfold uint_of_char at 1.
  now destruct (uint_of_char _ _).
Qed.

Lemma ids_below_mono (lo lo' : Z) (ms : list Message.t) :
  lo <= lo' -> ids_below lo ms -> ids_below lo' ms.
Proof. intros Hle H m z Hin Hz. apply H; [exact Hin | lia]. Qed.

Lemma ids_below_nil (lo : Z) : ids_below lo [].
Proof. intros m z []. Qed.

(** Appending a message stamped at or above the bound keeps the ids
    distinct and moves the bound past its stamp. *)
Lemma append_stamped (lo t : Z) (ms : list Message.t) (m : Message.t) :
  Message.id m = Js.Number_toString t -> lo <= t ->
  NoDup (ids ms) -> ids_below lo ms ->
  NoDup (ids (ms ++ [m])) /\ ids_below (t + 1) (ms ++ [m]).
Proof.
  intros Hid Hle Hnd Hb. split.
  - unfold ids. rewrite map_app. simpl.
    apply NoDup_app; [exact Hnd | apply NoDup_cons; [intros [] | constructor] |].
    intros i Hi [<-|[]]. apply in_map_iff in Hi. destruct Hi as (m' & E & Hin).
    apply (Hb m' t Hin Hle). now rewrite E.
  - intros m' z Hin Hz. apply in_app_or in Hin. destruct Hin as [Hin|[<-|[]]].
    + apply Hb; [exact Hin | lia].
    + rewrite Hid. intros Heq. apply JsFacts.Number_toString_inj in Heq. lia.
Qed.

(** C8. The ids of a transcript are meant to be distinct (the view keys
    the message bubbles by them, and the reply is stamped one past the clock
    so as not to meet its own user message), but the code does not keep them
    so: signed in and in mock mode, a send at 1000 ms is answered at 3000 ms,
    the reply gets the id 3001, and the user message sent at 3001 ms gets the
    id 3001 too.  The transcript then holds two messages with one id. *)
Theorem ids_collide_one_millisecond_apart :
  let evs :=
    [ EvLogin;
      EvLoginTimeout Sample.boot;
      EvInput "hello";
      EvSend (Sample.begin_at 1000);
      EvSettle 0 (Sample.settle_at 3000 (OkJson []));
      EvInput "and then?";
      EvSend (Sample.begin_at 3001) ] in
  let x := run Sample.boot evs initialSession in
  ids (messages (app x)) = ["1000"; "3001"; "3001"] /\
  map Message.role (messages (app x))
  = [Role.user; Role.assistant; Role.user] /\
  ~ NoDup (ids (messages (app x))).
Proof.
  intros evs x.
  assert (E : ids (messages (app x)) = ["1000"; "3001"; "3001"])
    by reflexivity.
  split; [exact E|]. split; [reflexivity|].
  rewrite E. intros H.
  inversion H as [|? ? _ H1]. inversion H1 as [|? ? Hn _].
  apply Hn. left. reflexivity.
Qed.

(** * Further properties of the handlers *)

(** ** Ink and trimming *)

Lemma has_ink_trimStart (s : string) : has_ink (Js.trimStart s) = has_ink s.
Proof.
  induction s as [|c s IH]; simpl; [reflexivity|].
  destruct (Js.is_ws c) eqn:E; simpl; [exact IH | now rewrite E].
Qed.

Lemma truthy_trimEnd (s : string) : Js.truthy (Js.trimEnd s) = has_ink s.
Proof.
  induction s as [|c s IH]; simpl; [reflexivity|].
  destruct (Js.trimEnd s) as [|c' r'].
  - simpl in IH. rewrite <- IH.
    destruct (Js.is_ws c); reflexivity.
  - simpl in IH. rewrite <- IH. now rewrite orb_true_r.
Qed.

(** [s.trim()] is truthy exactly when [s] has ink. *)
Lemma truthy_trim (s : string) : Js.truthy (Js.trim s) = has_ink s.
Proof. unfold Js.trim. now rewrite truthy_trimEnd, has_ink_trimStart. Qed.

Lemma has_ink_append (a b : string) :
  has_ink (a ++ b) = has_ink a || has_ink b.
Proof.
  induction a as [|c a IH]; simpl; [reflexivity|].
  now rewrite IH, orb_assoc.
Qed.

Lemma has_ink_concat_LF (ms : list string) :
  has_ink (String.concat Js.LF ms) = existsb has_ink ms.
Proof.
  induction ms as [|m ms IH]; [reflexivity|].
  destruct ms as [|m' ms].
  - simpl. now rewrite orb_false_r.
  - change (String.concat Js.LF (m :: m' :: ms))
      with (m ++ Js.LF ++ String.concat Js.LF (m' :: ms)).
    rewrite !has_ink_append, IH. reflexivity.
Qed.

Lemma trim_blank (s : string) : has_ink s = false -> Js.trim s = "".
Proof.
  intros H. apply JsFacts.truthy_false. now rewrite truthy_trim.
Qed.

(** ** [substring(0, n)] *)

Lemma substring0_length (n : nat) (s : string) :
  String.length (substring 0 n s) = Nat.min n (String.length s).
Proof.
  revert s. induction n as [|n IH]; intros s.
  - now destruct s.
  - destruct s as [|c s]; simpl; [reflexivity|]. now rewrite IH.
Qed.

Lemma substring0_prefix (n : nat) (s : string) :
  exists rest, s = substring 0 n s ++ rest.
Proof.
  revert s. induction n as [|n IH]; intros s.
  - exists s. now destruct s.
  - destruct s as [|c s]; simpl; [now exists ""|].
    destruct (IH s) as [rest E]. exists rest. now rewrite <- E.
Qed.

Lemma substring0_all (n : nat) (s : string) :
  (String.length s <= n)%nat -> substring 0 n s = s.
Proof.
  revert s. induction n as [|n IH]; intros s H.
  - destruct s; [reflexivity | simpl in H; lia].
  - destruct s as [|c s]; simpl; [reflexivity|].
    rewrite IH; [reflexivity | simpl in H; lia].
Qed.

Lemma length_append (a b : string) :
  String.length (a ++ b) = (String.length a + String.length b)%nat.
Proof. induction a as [|c a IH]; simpl; [reflexivity | now rewrite IH]. Qed.

(** ** More on the two halves *)

Lemma begun_request b s s1 p req :
  begun b s s1 p -> awaiting p = AwaitFetch req ->
  Js.truthy (apiKey s) = true /\
  req = {| vfUserId := "user-" ++ currentConversationId p;
           Authorization := Js.trim (apiKey s);
           versionID := Js.or_else (Js.trim (versionId s)) "production";
           payload := inputText s |}.
Proof.
  intros H A. destruct (Js.truthy (apiKey s)) eqn:Hk.
  - rewrite (begun_live _ _ _ _ H Hk) in A. injection A as <-. now split.
  - rewrite (begun_mock _ _ _ _ H Hk) in A. discriminate.
Qed.

Lemma begun_active b s s1 p id :
  begun b s s1 p -> activeConversationId s = Some id ->
  Js.truthy id = true ->
  currentConversationId p = id /\ no_id (activeConversationId_seen p) = false.
Proof.
  intros H Ha Ht. rewrite (begun_seen _ _ _ _ H), Ha. simpl. rewrite Ht.
  split; [|reflexivity].
  destruct (begun_guard _ _ _ _ H) as [Hg Hs].
  unfold begun, send_begin in H. rewrite Hg, Hs, Ha, Ht in H. simpl in H.
  now injection H as <- <-.
Qed.

Lemma begun_succeeds b s s1 p e :
  begun b s s1 p ->
  (apiKey s = "" \/ exists traces, outcome e = OkJson traces) ->
  exists text, try_content p (outcome e) = inl text.
Proof.
  intros H Hok. destruct (Js.truthy (apiKey s)) eqn:Hk.
  - destruct Hok as [Hk' | [traces Ho]].
    + rewrite Hk' in Hk. discriminate.
    + rewrite (try_content_live _ _ _ (begun_live _ _ _ _ H Hk)), Ho. eauto.
  - rewrite (try_content_mock _ _ (begun_mock _ _ _ _ H Hk)). eauto.
Qed.

Lemma begun_fails b s s1 p e :
  begun b s s1 p ->
  apiKey s <> "" ->
  (forall traces, outcome e <> OkJson traces) ->
  exists message, try_content p (outcome e) = inr message.
Proof.
  intros H Hk Hf.
  assert (Ht : Js.truthy (apiKey s) = true)
    by (destruct (apiKey s); [contradiction | reflexivity]).
  rewrite (try_content_live _ _ _ (begun_live _ _ _ _ H Ht)).
  destruct (outcome e) as [m|st tx|traces]; eauto.
  now destruct (Hf traces).
Qed.

(** A call begun inside a conversation registers nothing when it settles. *)
Lemma settle_inside p e s :
  no_id (activeConversationId_seen p) = false ->
  conversations (send_settle p e s) = conversations s /\
  activeConversationId (send_settle p e s) = activeConversationId s.
Proof.
  intros Hn. unfold send_settle. rewrite Hn.
  now destruct (try_content p (outcome e)).
Qed.

(** The cells the second half never writes. *)
Lemma settle_frame p e s :
  user (send_settle p e s) = user s /\
  isLoginLoading (send_settle p e s) = isLoginLoading s /\
  inputText (send_settle p e s) = inputText s /\
  isSidebarOpen (send_settle p e s) = isSidebarOpen s /\
  isDarkMode (send_settle p e s) = isDarkMode s /\
  isSettingsOpen (send_settle p e s) = isSettingsOpen s /\
  apiKey (send_settle p e s) = apiKey s /\
  versionId (send_settle p e s) = versionId s.
Proof.
  unfold send_settle.
  destruct (try_content p (outcome e));
    [destruct (no_id (activeConversationId_seen p))|]; repeat split.
Qed.

(** ** The session key across turns *)

(** X1. After a first turn that did not fail, the next send of the same
    chat reuses the conversation id minted at the first turn: its request is
    addressed to the same session key, and it registers no second
    conversation. *)
Theorem session_key_persists
    (s s1 : AppState) (b : BeginEnv) (p : Pending) (e : SettleEnv) :
  no_id (activeConversationId s) = true ->
  send_begin b s = Some (s1, p) ->
  (apiKey s = "" \/ exists traces, outcome e = OkJson traces) ->
  forall b' text r p',
    send_begin b' (setInputText text (handleSendMessage b e s)) = Some (r, p')
    ->
    currentConversationId p' = currentConversationId p /\
    (forall req',
        awaiting p' = AwaitFetch req' ->
        vfUserId req' = "user-conv-" ++ Js.Number_toString (now_conv b)) /\
    (forall e' s2,
        conversations (send_settle p' e' s2) = conversations s2 /\
        activeConversationId (send_settle p' e' s2)
        = activeConversationId s2).
Proof.
  intros Hn H Hok b' text r p' H'.
  destruct (begun_succeeds _ _ _ _ e H Hok) as [reply T].
  assert (Hseen : no_id (activeConversationId_seen p) = true)
    by now rewrite (begun_seen _ _ _ _ H).
  pose proof (begun_minted _ _ _ _ H Hn) as M.
  assert (A : activeConversationId
                (setInputText text (handleSendMessage b e s))
              = Some (currentConversationId p)).
  { unfold handleSendMessage. rewrite H.
    apply (settle_succeeded p e s1 reply T Hseen). }
  assert (Ht : Js.truthy (currentConversationId p) = true)
    by (rewrite M; reflexivity).
  destruct (begun_active _ _ _ _ _ H' A Ht) as [C N].
  split; [exact C|]. split.
  - intros req' A'. destruct (begun_request _ _ _ _ _ H' A') as [_ ->].
    simpl. now rewrite C, M.
  - intros e' s2. now apply settle_inside.
Qed.

Lemma session_key_persists_witness :
  let e := Sample.settle_at 1500 (OkJson Sample.hi_there) in
  let s3 := handleSendMessage (Sample.begin_at 1000) e Sample.live_state in
  no_id (activeConversationId Sample.live_state) = true /\
  (exists r p',
      send_begin (Sample.begin_at 9000) (setInputText "and then?" s3)
      = Some (r, p')) /\
  forall b' text r p',
    send_begin b' (setInputText text s3) = Some (r, p') ->
    currentConversationId p' = currentConversationId (snd Sample.live_begun) /\
    (forall req',
        awaiting p' = AwaitFetch req' ->
        vfUserId req' = "user-conv-" ++ Js.Number_toString 1000) /\
    (forall e' s2,
        conversations (send_settle p' e' s2) = conversations s2 /\
        activeConversationId (send_settle p' e' s2)
        = activeConversationId s2).
Proof.
  intros e s3. split; [reflexivity|]. split; [eexists _, _; reflexivity|].
  apply (session_key_persists Sample.live_state (fst Sample.live_begun)
           (Sample.begin_at 1000) (snd Sample.live_begun) e);
    [reflexivity | reflexivity | right; exists Sample.hi_there; reflexivity].
Defined.

(** X2. A send made inside a conversation (a non-empty active id) is
    addressed to the session key [user-<id>], and when it settles, on any
    outcome and in any state, the registry and the active id are left as they
    are: the summary of an existing conversation is never refreshed. *)
Theorem send_inside_conversation
    (s s1 : AppState) (id : string) (b : BeginEnv) (p : Pending) :
  activeConversationId s = Some id ->
  id <> "" ->
  send_begin b s = Some (s1, p) ->
  currentConversationId p = id /\
  (forall req, awaiting p = AwaitFetch req -> vfUserId req = "user-" ++ id) /\
  (forall e s2,
      conversations (send_settle p e s2) = conversations s2 /\
      activeConversationId (send_settle p e s2) = activeConversationId s2) /\
  (forall e,
      conversations (handleSendMessage b e s) = conversations s /\
      activeConversationId (handleSendMessage b e s) = Some id).
Proof.
  intros Ha Hid H.
  assert (Ht : Js.truthy id = true)
    by (destruct id; [contradiction | reflexivity]).
  destruct (begun_active _ _ _ _ _ H Ha Ht) as [C N].
  split; [exact C|]. split; [|split].
  - intros req A. destruct (begun_request _ _ _ _ _ H A) as [_ ->].
    simpl. now rewrite C.
  - intros e s2. now apply settle_inside.
  - intros e. unfold handleSendMessage. unfold begun in H. rewrite H.
    destruct (settle_inside p e s1 N) as [-> ->].
    rewrite (begun_state _ _ _ _ H). simpl. now rewrite Ha.
Qed.

Lemma send_inside_conversation_witness :
  let s := setInputText "hello"
             (handleSelectConversation "conv-1" "t1" "t2" Sample.live_state) in
  exists s1 p,
    send_begin (Sample.begin_at 1000) s = Some (s1, p) /\
    currentConversationId p = "conv-1" /\
    (forall req,
        awaiting p = AwaitFetch req -> vfUserId req = "user-" ++ "conv-1") /\
    (forall e s2,
        conversations (send_settle p e s2) = conversations s2 /\
        activeConversationId (send_settle p e s2) = activeConversationId s2) /\
    (forall e,
        conversations (handleSendMessage (Sample.begin_at 1000) e s)
        = conversations s /\
        activeConversationId (handleSendMessage (Sample.begin_at 1000) e s)
        = Some "conv-1").
Proof.
  intros s.
  destruct (send_begin (Sample.begin_at 1000) s) as [[s1 p]|] eqn:E;
    [|discriminate E].
  exists s1, p. split; [reflexivity|].
  apply (send_inside_conversation s s1 "conv-1" (Sample.begin_at 1000) p);
    [reflexivity | discriminate | exact E].
Defined.

(** ** The request *)

(** X3. With a credential configured the request carries the credential
    trimmed, the raw input as payload, and a version selector that is never
    empty: the configured version trimmed, or [production] when that is
    blank. *)
Theorem request_version_defaults
    (s s1 : AppState) (b : BeginEnv) (p : Pending) :
  apiKey s <> "" ->
  send_begin b s = Some (s1, p) ->
  exists req,
    awaiting p = AwaitFetch req /\
    Authorization req = Js.trim (apiKey s) /\
    payload req = inputText s /\
    versionID req <> "" /\
    (has_ink (versionId s) = true -> versionID req = Js.trim (versionId s)) /\
    (has_ink (versionId s) = false -> versionID req = "production").
Proof.
  intros Hk H.
  assert (Ht : Js.truthy (apiKey s) = true)
    by (destruct (apiKey s); [contradiction | reflexivity]).
  eexists. split; [apply (begun_live _ _ _ _ H Ht)|]. simpl.
  split; [reflexivity|]. split; [reflexivity|].
  unfold Js.or_else. rewrite truthy_trim.
  destruct (has_ink (versionId s)) eqn:Hv.
  - split; [|split; [reflexivity | discriminate]].
    intros E. rewrite <- truthy_trim, E in Hv. discriminate.
  - split; [discriminate | split; [discriminate | reflexivity]].
Qed.

Lemma request_version_defaults_witness :
  let s := setVersionId "  " Sample.live_state in
  apiKey s <> "" /\
  exists s1 p req,
    send_begin (Sample.begin_at 1000) s = Some (s1, p) /\
    awaiting p = AwaitFetch req /\
    Authorization req = Js.trim (apiKey s) /\
    payload req = inputText s /\
    versionID req <> "" /\
    (has_ink (versionId s) = true -> versionID req = Js.trim (versionId s)) /\
    (has_ink (versionId s) = false -> versionID req = "production").
Proof.
  intros s. split; [discriminate|].
  destruct (send_begin (Sample.begin_at 1000) s) as [[s1 p]|] eqn:E;
    [|discriminate E].
  destruct (request_version_defaults s s1 (Sample.begin_at 1000) p)
    as [req R]; [discriminate | exact E |].
  exists s1, p, req. split; [reflexivity | exact R].
Defined.

(** X4. A credential made of white space only counts as configured: the
    mock mode is not entered, and the request goes out with an empty
    [Authorization] header. *)
Theorem blank_key_is_sent_empty
    (s s1 : AppState) (b : BeginEnv) (p : Pending) :
  apiKey s <> "" ->
  has_ink (apiKey s) = false ->
  send_begin b s = Some (s1, p) ->
  awaiting p <> AwaitTimer MOCK_DELAY_MS /\
  exists req, awaiting p = AwaitFetch req /\ Authorization req = "".
Proof.
  intros Hk Hb H.
  assert (Ht : Js.truthy (apiKey s) = true)
    by (destruct (apiKey s); [contradiction | reflexivity]).
  rewrite (begun_live _ _ _ _ H Ht). split; [discriminate|].
  eexists. split; [reflexivity|]. simpl. now apply trim_blank.
Qed.

Lemma blank_key_is_sent_empty_witness :
  let s := setApiKey "  " Sample.mock_state in
  apiKey s <> "" /\ has_ink (apiKey s) = false /\
  exists s1 p,
    send_begin (Sample.begin_at 1000) s = Some (s1, p) /\
    awaiting p <> AwaitTimer MOCK_DELAY_MS /\
    exists req, awaiting p = AwaitFetch req /\ Authorization req = "".
Proof.
  intros s. split; [discriminate|]. split; [reflexivity|].
  destruct (send_begin (Sample.begin_at 1000) s) as [[s1 p]|] eqn:E;
    [|discriminate E].
  exists s1, p. split; [reflexivity|].
  apply (blank_key_is_sent_empty s s1 (Sample.begin_at 1000) p);
    [discriminate | reflexivity | exact E].
Defined.

(** ** Failures other than a bad status *)

(** X5. When the network step raises an exception of its own (the request
    cannot be made, the body cannot be read or parsed), the assistant message
    is the error template around the exception's message, or around
    [Unknown error] when that message is empty; the registry and the active
    id are left as they are. *)
Theorem rejection_is_reported
    (s s1 : AppState) (b : BeginEnv) (p : Pending) (e : SettleEnv)
    (m : string) :
  apiKey s <> "" ->
  send_begin b s = Some (s1, p) ->
  outcome e = Rejected m ->
  Message.content (reply_message p e)
  = "Error connecting to Voiceflow: "
    ++ (if (m =? "")%string then "Unknown error" else m)
    ++ ". " ++ Js.LF ++ Js.LF ++ "Please check your API Key in Settings." /\
  Js.includes (Message.content (reply_message p e))
    (if (m =? "")%string then "Unknown error" else m) /\
  (forall s2,
      conversations (send_settle p e s2) = conversations s2 /\
      activeConversationId (send_settle p e s2) = activeConversationId s2).
Proof.
  intros Hk H Ho.
  assert (Ht : Js.truthy (apiKey s) = true)
    by (destruct (apiKey s); [contradiction | reflexivity]).
  assert (T : try_content p (outcome e) = inr m)
    by (rewrite (try_content_live _ _ _ (begun_live _ _ _ _ H Ht)), Ho;
        reflexivity).
  assert (C : Message.content (reply_message p e) = error_reply m)
    by (apply (settle_failed p e s _ T)).
  assert (E : error_reply m
              = "Error connecting to Voiceflow: "
                ++ (if (m =? "")%string then "Unknown error" else m)
                ++ ". " ++ Js.LF ++ Js.LF
                ++ "Please check your API Key in Settings.").
  { unfold error_reply, Js.or_else, Js.truthy.
    now destruct (m =? "")%string. }
  rewrite C, E. split; [reflexivity|]. split.
  - apply JsFacts.includes_mid.
  - intros s2. destruct (settle_failed p e s2 _ T) as [-> _]. now split.
Qed.

Lemma rejection_is_reported_witness :
  let e := Sample.settle_at 1500 (Rejected "") in
  let p := snd Sample.live_begun in
  apiKey Sample.live_state <> "" /\
  Message.content (reply_message p e)
  = "Error connecting to Voiceflow: "
    ++ "Unknown error"
    ++ ". " ++ Js.LF ++ Js.LF ++ "Please check your API Key in Settings." /\
  Js.includes (Message.content (reply_message p e)) "Unknown error" /\
  (forall s2,
      conversations (send_settle p e s2) = conversations s2 /\
      activeConversationId (send_settle p e s2) = activeConversationId s2).
Proof.
  intros e p. split; [discriminate|].
  apply (rejection_is_reported Sample.live_state (fst Sample.live_begun)
           (Sample.begin_at 1000) p e "");
    [discriminate | reflexivity | reflexivity].
Defined.

(** ** What a send leaves alone *)

(** X6. [handleSendMessage] never writes the profile, the login flag, the
    sidebar, theme and settings flags, the credential or the version: they
    keep their values through a whole call, whatever the guard and the
    outcome. *)
Theorem send_leaves_settings_alone
    (b : BeginEnv) (e : SettleEnv) (s : AppState) :
  let s' := handleSendMessage b e s in
  user s' = user s /\
  isLoginLoading s' = isLoginLoading s /\
  isSidebarOpen s' = isSidebarOpen s /\
  isDarkMode s' = isDarkMode s /\
  isSettingsOpen s' = isSettingsOpen s /\
  apiKey s' = apiKey s /\
  versionId s' = versionId s.
Proof.
  unfold handleSendMessage.
  destruct (send_begin b s) as [[s1 p]|] eqn:H; [|repeat split].
  destruct (settle_frame p e s1)
    as (-> & -> & _ & -> & -> & -> & -> & ->).
  rewrite (begun_state _ _ _ _ H). repeat split.
Qed.

(** X7. The input buffer is emptied when the call starts and is not
    written again: what the user types while the send is in flight is still
    in the buffer when it settles, and the message sent and echoed is the
    text that was in the buffer at the start. *)
Theorem draft_survives_flight
    (s s1 : AppState) (b : BeginEnv) (p : Pending) :
  send_begin b s = Some (s1, p) ->
  inputText s1 = "" /\
  Message.content (userMsg p) = inputText s /\
  (forall draft e,
      inputText (send_settle p e (setInputText draft s1)) = draft /\
      messages (send_settle p e (setInputText draft s1))
      = (messages s ++ [userMsg p; reply_message p e])%list).
Proof.
  intros H. pose proof (begun_state _ _ _ _ H) as E1.
  split; [now rewrite E1|].
  split; [now rewrite (begun_userMsg _ _ _ _ H)|].
  intros draft e. split.
  - now rewrite settle_inputText.
  - rewrite settle_messages, E1. simpl. now rewrite <- app_assoc.
Qed.

Lemma draft_survives_flight_witness :
  let s1 := fst Sample.live_begun in
  let p := snd Sample.live_begun in
  inputText s1 = "" /\
  Message.content (userMsg p) = inputText Sample.live_state /\
  (forall draft e,
      inputText (send_settle p e (setInputText draft s1)) = draft /\
      messages (send_settle p e (setInputText draft s1))
      = (messages Sample.live_state ++ [userMsg p; reply_message p e])%list).
Proof.
  intros s1 p.
  apply (draft_survives_flight Sample.live_state s1 (Sample.begin_at 1000) p).
  reflexivity.
Defined.

(** ** Edge cases of the reply and of the title *)

(** X8. On a successful response the assistant message is empty exactly
    when the response has traces of type text or speak and every one of
    their messages is blank: the emptiness test that selects the fixed notice
    runs before the trimming. *)
Theorem reply_is_empty_iff_blank
    (s s1 : AppState) (b : BeginEnv) (p : Pending) (e : SettleEnv)
    (traces : list Trace.t) :
  apiKey s <> "" ->
  send_begin b s = Some (s1, p) ->
  outcome e = OkJson traces ->
  (Message.content (reply_message p e) = "" <->
   existsb is_spoken traces = true /\
   existsb has_ink (map Trace.message (filter is_spoken traces)) = false).
Proof.
  intros Hk H Ho.
  assert (Ht : Js.truthy (apiKey s) = true)
    by (destruct (apiKey s); [contradiction | reflexivity]).
  assert (C : Message.content (reply_message p e)
              = if existsb is_spoken traces then Js.trim (joined_text traces)
                else NO_TEXT_NOTICE).
  { unfold reply_message, try_content.
    rewrite (begun_live _ _ _ _ H Ht), Ho. cbn [Message.content].
    apply reply_text. }
  rewrite C. destruct (existsb is_spoken traces).
  - unfold joined_text at 1. rewrite <- has_ink_concat_LF, <- truthy_trim.
    fold (joined_text traces). split.
    + intros ->. split; reflexivity.
    + intros [_ E]. now apply JsFacts.truthy_false.
  - split; [discriminate | intros [E _]; discriminate].
Qed.

Lemma reply_is_empty_iff_blank_witness :
  let traces :=
    [Trace.mk "text" "  "; Trace.mk "end" "x"; Trace.mk "speak" ""] in
  let e := Sample.settle_at 1500 (OkJson traces) in
  let p := snd Sample.live_begun in
  apiKey Sample.live_state <> "" /\
  Message.content (reply_message p e) = "" /\
  (Message.content (reply_message p e) = "" <->
   existsb is_spoken traces = true /\
   existsb has_ink (map Trace.message (filter is_spoken traces)) = false).
Proof.
  intros traces e p. split; [discriminate|]. split; [reflexivity|].
  apply (reply_is_empty_iff_blank Sample.live_state (fst Sample.live_begun)
           (Sample.begin_at 1000) p e traces);
    [discriminate | reflexivity | reflexivity].
Defined.

(** X9. The title registered at a first turn is a prefix of the raw input,
    of at most 30 characters, followed by three full stops: its length is
    [min 30 (length input) + 3], and an input of 30 characters or fewer is
    kept whole and still gets the full stops. *)
Theorem title_is_bounded
    (s s1 : AppState) (b : BeginEnv) (p : Pending) (e : SettleEnv) :
  no_id (activeConversationId s) = true ->
  send_begin b s = Some (s1, p) ->
  (apiKey s = "" \/ exists traces, outcome e = OkJson traces) ->
  exists summary,
    conversations (handleSendMessage b e s) = summary :: conversations s /\
    String.length (Conversation.title summary)
    = (Nat.min 30 (String.length (inputText s)) + 3)%nat /\
    (exists head rest,
        Conversation.title summary = head ++ "..." /\
        inputText s = head ++ rest) /\
    ((String.length (inputText s) <= 30)%nat ->
     Conversation.title summary = inputText s ++ "...").
Proof.
  intros Hn H Hok.
  destruct (begun_succeeds _ _ _ _ e H Hok) as [reply T].
  assert (Hseen : no_id (activeConversationId_seen p) = true)
    by now rewrite (begun_seen _ _ _ _ H).
  destruct (settle_succeeded p e s1 reply T Hseen) as [Hc _].
  eexists. split.
  - unfold handleSendMessage. rewrite H, Hc.
    now rewrite (begun_state _ _ _ _ H).
  - cbn [Conversation.title]. rewrite (begun_userMsg _ _ _ _ H).
    cbn [Message.content]. unfold Js.substring0. split; [|split].
    + now rewrite length_append, substring0_length.
    + destruct (substring0_prefix 30 (inputText s)) as [rest E].
      now exists (substring 0 30 (inputText s)), rest.
    + intros Hl. now rewrite substring0_all.
Qed.

Lemma title_is_bounded_witness :
  let s := setInputText "How cold should the plunge water be?" initialState in
  let e := Sample.settle_at 3000 (OkJson []) in
  no_id (activeConversationId s) = true /\
  (apiKey s = "" \/ exists traces, outcome e = OkJson traces) /\
  exists summary,
    conversations (handleSendMessage (Sample.begin_at 1000) e s)
    = summary :: conversations s /\
    String.length (Conversation.title summary)
    = (Nat.min 30 (String.length (inputText s)) + 3)%nat /\
    (exists head rest,
        Conversation.title summary = head ++ "..." /\
        inputText s = head ++ rest) /\
    ((String.length (inputText s) <= 30)%nat ->
     Conversation.title summary = inputText s ++ "...").
Proof.
  intros s e. split; [reflexivity|]. split; [left; reflexivity|].
  destruct (send_begin (Sample.begin_at 1000) s) as [[s1 p]|] eqn:E;
    [|discriminate E].
  apply (title_is_bounded s s1 (Sample.begin_at 1000) p e);
    [reflexivity | exact E | left; reflexivity].
Defined.

(** ** Invariants of the session *)

(** X10. In every session reachable from the initial one the busy flag is
    raised exactly when one call of [handleSendMessage] is suspended, and
    lowered exactly when none is: no handler other than the two halves of the
    send touches the flag, and logging out or starting a new chat does not
    lower it. *)
Theorem busy_iff_in_flight (loaded_at : string) (evs : list Event) :
  let x := run loaded_at evs initialSession in
  (isSending (app x) = true <-> exists p, inflight x = [p]) /\
  (isSending (app x) = false <-> inflight x = []).
Proof.
  intros x.
  pose proof (run_flight_count loaded_at evs initialSession eq_refl) as H.
  fold x in H. unfold flight_count in H.
  destruct (isSending (app x)); destruct (inflight x) as [|p [|q l]];
    try discriminate H; split; split; intros E;
    try reflexivity; try discriminate E; eauto;
    destruct E as [p' E]; discriminate E.
Qed.

Lemma walk_app (expect : bool) (l1 l2 : list Role.t) :
  walk expect (l1 ++ l2) =
  match walk expect l1 with
  | Some expect' => walk expect' l2
  | None => None
  end.
Proof.
  revert expect. induction l1 as [|r l1 IH]; intros expect; [reflexivity|].
  simpl. destruct r, expect; auto.
Qed.

Lemma step_turn loaded_at ev x :
  flight_count x -> keeps_transcript ev = true ->
  exists added,
    messages (app (step loaded_at ev x)) = (messages (app x) ++ added)%list /\
    walk (negb (isSending (app x))) (map Message.role added)
    = Some (negb (isSending (app (step loaded_at ev x)))).
Proof.
  intros Hf Hk. destruct ev; try discriminate Hk;
    try (exists []; split; [simpl; now rewrite app_nil_r | reflexivity]).
  - (* send *)
    simpl. destruct (send_begin b (app x)) as [[s1 p]|] eqn:E.
    + destruct (begun_guard _ _ _ _ E) as [_ Hs].
      exists [userMsg p]. rewrite (begun_state _ _ _ _ E), Hs. simpl.
      split; [reflexivity|].
      now rewrite (begun_userMsg _ _ _ _ E).
    + exists []. split; [now rewrite app_nil_r | reflexivity].
  - (* settle *)
    simpl. destruct (nth_error (inflight x) k) as [p|] eqn:E.
    + exists [reply_message p e]. cbn [app].
      split; [apply settle_messages|].
      unfold flight_count in Hf. destruct (isSending (app x)).
      * reflexivity.
      * destruct (inflight x); [destruct k|]; discriminate.
    + exists []. split; [now rewrite app_nil_r | reflexivity].
Qed.

(** X11. As long as the transcript is not replaced (no logout, new chat,
    conversation switch or settings save), it only grows, and the messages
    added take turns: a user message, then the assistant message that
    answers it, and so on; the last one added is a user message exactly while
    a send is in flight. *)
Theorem turns_alternate
    (loaded_at : string) (evs : list Event) (x : Session) :
  flight_count x ->
  forallb keeps_transcript evs = true ->
  exists added,
    messages (app (run loaded_at evs x)) = (messages (app x) ++ added)%list /\
    walk (negb (isSending (app x))) (map Message.role added)
    = Some (negb (isSending (app (run loaded_at evs x)))).
Proof.
  revert x. induction evs as [|ev evs IH]; intros x Hf Hk.
  - exists []. split; [simpl; now rewrite app_nil_r | reflexivity].
  - simpl in Hk. apply andb_true_iff in Hk. destruct Hk as [Hev Hk].
    destruct (step_turn loaded_at ev x Hf Hev) as (a1 & M1 & W1).
    destruct (IH (step loaded_at ev x)
                (step_flight_count loaded_at ev x Hf) Hk) as (a2 & M2 & W2).
    exists (a1 ++ a2)%list. simpl. split.
    + now rewrite M2, M1, app_assoc.
    + now rewrite map_app, walk_app, W1.
Qed.

Lemma turns_alternate_witness :
  let evs :=
    [ EvInput "hello";
      EvSend (Sample.begin_at 1000);
      EvOpenSidebar true;
      EvSettle 0 (Sample.settle_at 3000 (OkJson []));
      EvTranscript "and then?";
      EvSend (Sample.begin_at 4000) ] in
  flight_count initialSession /\
  forallb keeps_transcript evs = true /\
  map Message.role (messages (app (run Sample.boot evs initialSession)))
  = [Role.user; Role.assistant; Role.user] /\
  exists added,
    messages (app (run Sample.boot evs initialSession))
    = (messages (app initialSession) ++ added)%list /\
    walk (negb (isSending (app initialSession))) (map Message.role added)
    = Some (negb (isSending (app (run Sample.boot evs initialSession)))).
Proof.
  intros evs. split; [reflexivity|]. split; [reflexivity|].
  split; [reflexivity|].
  apply (turns_alternate Sample.boot evs initialSession); reflexivity.
Defined.

Lemma step_settings loaded_at ev x :
  keeps_settings ev = true ->
  apiKey (app (step loaded_at ev x)) = apiKey (app x) /\
  versionId (app (step loaded_at ev x)) = versionId (app x).
Proof.
  intros Hk. destruct ev; try discriminate Hk; try (split; reflexivity).
  - simpl. destruct (send_begin b (app x)) as [[s1 p]|] eqn:E;
      [|split; reflexivity].
    rewrite (begun_state _ _ _ _ E). split; reflexivity.
  - simpl. destruct (nth_error (inflight x) k) as [p|];
      [|split; reflexivity].
    cbn [app]. destruct (settle_frame p e (app x)) as (_&_&_&_&_&_&->&->).
    split; reflexivity.
Qed.

(** X12. The credential and the version change only when the settings are
    saved: every other event, logging out included, leaves both as they
    are, so a credential entered before a logout is still used after it. *)
Theorem settings_change_only_by_save
    (loaded_at : string) (evs : list Event) (x : Session) :
  forallb keeps_settings evs = true ->
  apiKey (app (run loaded_at evs x)) = apiKey (app x) /\
  versionId (app (run loaded_at evs x)) = versionId (app x).
Proof.
  revert x. induction evs as [|ev evs IH]; intros x Hk; [split; reflexivity|].
  simpl in Hk. apply andb_true_iff in Hk. destruct Hk as [Hev Hk].
  destruct (IH (step loaded_at ev x) Hk) as [Ia Iv].
  destruct (step_settings loaded_at ev x Hev) as [Sa Sv].
  simpl. now rewrite Ia, Iv, Sa, Sv.
Qed.

Lemma settings_change_only_by_save_witness :
  let x := mkSession Sample.live_state [] in
  let evs :=
    [ EvSend (Sample.begin_at 1000); EvLogout; EvLogin;
      EvLoginTimeout "2024-05-01T08:00:09.000Z";
      EvSettle 0 (Sample.settle_at 3000 Sample.unauthorized); EvNewChat ] in
  forallb keeps_settings evs = true /\
  apiKey (app (run Sample.boot evs x)) = "VF.DM.key" /\
  versionId (app (run Sample.boot evs x)) = "production".
Proof.
  intros x evs. split; [reflexivity|].
  apply (settings_change_only_by_save Sample.boot evs x). reflexivity.
Defined.

Lemma Forall_remove_nth {A} (P : A -> Prop) (k : nat) (l : list A) :
  Forall P l -> Forall P (remove_nth k l).
Proof.
  unfold remove_nth. revert k.
  induction l as [|a l IH]; intros k H; [now destruct k|].
  inversion H as [|? ? Ha Hl]; subst.
  destruct k as [|k]; simpl; [exact Hl|].
  constructor; [exact Ha | now apply IH].
Qed.

Lemma step_minted loaded_at ev x :
  Forall (fun c => minted (Conversation.id c)) (conversations (app x)) ->
  Forall pending_minted (inflight x) ->
  Forall (fun c => minted (Conversation.id c))
    (conversations (app (step loaded_at ev x))) /\
  Forall pending_minted (inflight (step loaded_at ev x)).
Proof.
  intros Hc Hp. destruct ev; simpl; try (split; assumption).
  - (* login timer *)
    split; [|assumption]. repeat constructor. now exists 1.
  - (* logout *)
    split; [constructor | assumption].
  - (* save settings *)
    unfold handleSaveSettings.
    destruct (no_id (activeConversationId (app x))); split; assumption.
  - (* send *)
    destruct (send_begin b (app x)) as [[s1 p]|] eqn:E; [|split; assumption].
    simpl. rewrite (begun_state _ _ _ _ E). split; [exact Hc|].
    apply Forall_app. split; [exact Hp|]. constructor; [|constructor].
    intros Hn. rewrite (begun_seen _ _ _ _ E) in Hn.
    exists (now_conv b). now apply (begun_minted _ _ _ _ E).
  - (* settle *)
    destruct (nth_error (inflight x) k) as [p|] eqn:E; [|split; assumption].
    cbn [app inflight]. split; [|now apply Forall_remove_nth].
    assert (Pm : pending_minted p).
    { apply nth_error_In in E. revert E. now apply Forall_forall. }
    unfold send_settle.
    destruct (try_content p (outcome e)); [|exact Hc].
    destruct (no_id (activeConversationId_seen p)) eqn:Hn; [|exact Hc].
    simpl. constructor; [now apply Pm | exact Hc].
Qed.

(** X13. Every conversation id in the registry of a reachable session has
    the minted shape, [conv-] followed by a number: an id is registered only
    by a send that started with no active conversation, and such a send
    always mints its id.  In particular no registered id is empty. *)
Theorem registry_ids_are_minted (loaded_at : string) (evs : list Event) :
  Forall (fun c => minted (Conversation.id c) /\ Conversation.id c <> "")
    (conversations (app (run loaded_at evs initialSession))).
Proof.
  assert (G : forall x,
             Forall (fun c => minted (Conversation.id c))
               (conversations (app x)) ->
             Forall pending_minted (inflight x) ->
             Forall (fun c => minted (Conversation.id c))
               (conversations (app (run loaded_at evs x)))).
  { induction evs as [|ev evs IH]; intros x Hc Hp; [exact Hc|].
    destruct (step_minted loaded_at ev x Hc Hp) as [Hc' Hp'].
    simpl. now apply IH. }
  specialize (G initialSession (Forall_nil _) (Forall_nil _)).
  apply Forall_forall. intros c Hin.
  assert (M : minted (Conversation.id c))
    by (revert c Hin; now apply Forall_forall).
  split; [exact M|]. destruct M as [z ->]. discriminate.
Qed.

(** ** Handlers that run while a send is in flight *)

(** X14. Logging out does not cancel a send in flight: the busy flag stays
    raised, and when the call settles its reply is appended to the
    transcript that the logout emptied; a first turn that did not fail also
    registers its conversation and makes it active, although no user is
    signed in. *)
Theorem logout_does_not_cancel_send
    (s s1 : AppState) (b : BeginEnv) (p : Pending) (e : SettleEnv) :
  send_begin b s = Some (s1, p) ->
  let s3 := send_settle p e (handleLogout s1) in
  isSending (handleLogout s1) = true /\
  user s3 = None /\
  messages s3 = [reply_message p e] /\
  (no_id (activeConversationId s) = true ->
   (apiKey s = "" \/ exists traces, outcome e = OkJson traces) ->
   map Conversation.id (conversations s3)
   = ["conv-" ++ Js.Number_toString (now_conv b)] /\
   activeConversationId s3
   = Some ("conv-" ++ Js.Number_toString (now_conv b))).
Proof.
  intros H s3. pose proof (begun_state _ _ _ _ H) as E1.
  split; [now rewrite E1|].
  split.
  { unfold s3. now destruct (settle_frame p e (handleLogout s1)) as [-> _]. }
  split; [unfold s3; now rewrite settle_messages|].
  intros Hn Hok.
  destruct (begun_succeeds _ _ _ _ e H Hok) as [reply T].
  assert (Hseen : no_id (activeConversationId_seen p) = true)
    by now rewrite (begun_seen _ _ _ _ H).
  destruct (settle_succeeded p e (handleLogout s1) reply T Hseen) as [Hc Ha].
  unfold s3. rewrite Hc, Ha, (begun_minted _ _ _ _ H Hn). split; reflexivity.
Qed.

Lemma logout_does_not_cancel_send_witness :
  let s1 := fst Sample.mock_begun in
  let p := snd Sample.mock_begun in
  let e := Sample.settle_at 3000 (OkJson []) in
  let s3 := send_settle p e (handleLogout s1) in
  isSending (handleLogout s1) = true /\
  user s3 = None /\
  messages s3 = [reply_message p e] /\
  (no_id (activeConversationId Sample.mock_state) = true ->
   (apiKey Sample.mock_state = "" \/
    exists traces, outcome e = OkJson traces) ->
   map Conversation.id (conversations s3)
   = ["conv-" ++ Js.Number_toString (now_conv (Sample.begin_at 1000))] /\
   activeConversationId s3
   = Some ("conv-" ++ Js.Number_toString (now_conv (Sample.begin_at 1000)))).
Proof.
  intros s1 p e s3.
  apply (logout_does_not_cancel_send Sample.mock_state s1
           (Sample.begin_at 1000) p e).
  reflexivity.
Defined.

(** X15. When the user switches to a conversation while a send is in
    flight, the reply is appended to the placeholder transcript of the
    conversation switched to.  If the send was the first turn of a new chat
    and did not fail, the active id is then overwritten with the id minted
    for the new chat and that conversation is registered; in every other
    case (the send was begun inside a conversation, or it was a first turn
    that failed) the conversation switched to stays active and the registry
    is left as it is. *)
Theorem switch_during_flight
    (s s1 : AppState) (b : BeginEnv) (p : Pending) (e : SettleEnv)
    (id iso1 iso2 : string) :
  send_begin b s = Some (s1, p) ->
  let s3 := send_settle p e (handleSelectConversation id iso1 iso2 s1) in
  ids (messages s3)
  = ["hist-" ++ id ++ "-1"; "hist-" ++ id ++ "-2";
     Js.Number_toString (now_reply e + 1)] /\
  (no_id (activeConversationId s) = true ->
   (apiKey s = "" \/ exists traces, outcome e = OkJson traces) ->
   activeConversationId s3
   = Some ("conv-" ++ Js.Number_toString (now_conv b)) /\
   map Conversation.id (conversations s3)
   = ("conv-" ++ Js.Number_toString (now_conv b))
     :: map Conversation.id (conversations s)) /\
  (no_id (activeConversationId s) = false \/
   (apiKey s <> "" /\ forall traces, outcome e <> OkJson traces) ->
   activeConversationId s3 = Some id /\
   conversations s3 = conversations s).
Proof.
  intros H s3. split; [unfold s3; now rewrite settle_messages|].
  assert (Hseen : activeConversationId_seen p = activeConversationId s)
    by apply (begun_seen _ _ _ _ H).
  assert (Hc1 : conversations (handleSelectConversation id iso1 iso2 s1)
                = conversations s)
    by now rewrite (begun_state _ _ _ _ H).
  split.
  - intros Hn Hok.
    destruct (begun_succeeds _ _ _ _ e H Hok) as [reply T].
    rewrite <- Hseen in Hn.
    destruct (settle_succeeded p e (handleSelectConversation id iso1 iso2 s1)
                reply T Hn) as [Hc Ha].
    rewrite Hseen in Hn.
    unfold s3. rewrite Ha, Hc, Hc1, (begun_minted _ _ _ _ H Hn).
    split; reflexivity.
  - intros [Hn | [Hk Hf]].
    + rewrite <- Hseen in Hn.
      destruct (settle_inside p e (handleSelectConversation id iso1 iso2 s1)
                  Hn) as [Hc Ha].
      unfold s3. rewrite Ha, Hc, Hc1. split; reflexivity.
    + destruct (begun_fails _ _ _ _ e H Hk Hf) as [message T].
      destruct (settle_failed p e (handleSelectConversation id iso1 iso2 s1)
                  _ T) as [E _].
      unfold s3. rewrite E. simpl. split; [reflexivity|].
      now rewrite (begun_state _ _ _ _ H).
Qed.

Lemma switch_during_flight_witness :
  let s1 := fst Sample.live_begun in
  let p := snd Sample.live_begun in
  let ok := Sample.settle_at 1500 (OkJson Sample.hi_there) in
  let ko := Sample.settle_at 1500 Sample.unauthorized in
  let switched := handleSelectConversation "conv-1" "t1" "t2" s1 in
  activeConversationId (send_settle p ok switched) = Some "conv-1000" /\
  activeConversationId (send_settle p ko switched) = Some "conv-1" /\
  (forall e,
      let s3 := send_settle p e switched in
      ids (messages s3)
      = ["hist-" ++ "conv-1" ++ "-1"; "hist-" ++ "conv-1" ++ "-2";
         Js.Number_toString (now_reply e + 1)] /\
      (no_id (activeConversationId Sample.live_state) = true ->
       (apiKey Sample.live_state = "" \/
        exists traces, outcome e = OkJson traces) ->
       activeConversationId s3
       = Some ("conv-"
               ++ Js.Number_toString (now_conv (Sample.begin_at 1000))) /\
       map Conversation.id (conversations s3)
       = ("conv-" ++ Js.Number_toString (now_conv (Sample.begin_at 1000)))
         :: map Conversation.id (conversations Sample.live_state)) /\
      (no_id (activeConversationId Sample.live_state) = false \/
       (apiKey Sample.live_state <> "" /\
        forall traces, outcome e <> OkJson traces) ->
       activeConversationId s3 = Some "conv-1" /\
       conversations s3 = conversations Sample.live_state)).
Proof.
  intros s1 p ok ko switched. split; [reflexivity|]. split; [reflexivity|].
  intros e.
  apply (switch_during_flight Sample.live_state s1 (Sample.begin_at 1000) p e
           "conv-1" "t1" "t2").
  reflexivity.
Defined.

(** ** Settings, new chat, the send button and the voice input *)

(** X16. The settings saved drive the next send: an empty key gives the
    mock mode, any other key a request carrying the key trimmed and the
    version trimmed (or [production] when blank).  Saving while no
    conversation is active also replaces the transcript by the greeting, so
    the next user message follows the greeting alone; inside a conversation
    the transcript is kept. *)
Theorem saved_settings_drive_next_send
    (loaded_at key ver text : string) (s r : AppState)
    (b : BeginEnv) (p : Pending) :
  send_begin b (setInputText text (handleSaveSettings loaded_at key ver s))
  = Some (r, p) ->
  (key = "" -> awaiting p = AwaitTimer 2000) /\
  (key <> "" ->
   exists req,
     awaiting p = AwaitFetch req /\
     Authorization req = Js.trim key /\
     versionID req = Js.or_else (Js.trim ver) "production" /\
     payload req = text) /\
  (no_id (activeConversationId s) = true ->
   messages r = [INITIAL_MESSAGE loaded_at; userMsg p]) /\
  (no_id (activeConversationId s) = false ->
   messages r = (messages s ++ [userMsg p])%list).
Proof.
  intros H. set (s' := setInputText text _) in H.
  change (begun b s' r p) in H.
  assert (Ek : apiKey s' = key /\ versionId s' = ver /\ inputText s' = text).
  { unfold s', handleSaveSettings.
    destruct (no_id (activeConversationId s)); repeat split. }
  destruct Ek as (Ek & Ev & Ei).
  split; [|split; [|split]].
  - intros ->. apply (begun_mock _ _ _ _ H). now rewrite Ek.
  - intros Hk.
    assert (Ht : Js.truthy (apiKey s') = true)
      by (rewrite Ek; destruct key; [contradiction | reflexivity]).
    eexists. split; [apply (begun_live _ _ _ _ H Ht)|].
    cbn [Authorization versionID payload]. now rewrite Ek, Ev, Ei.
  - intros Hn. rewrite (begun_state _ _ _ _ H). simpl.
    unfold s', handleSaveSettings. now rewrite Hn.
  - intros Hn. rewrite (begun_state _ _ _ _ H). simpl.
    unfold s', handleSaveSettings. now rewrite Hn.
Qed.

Lemma saved_settings_drive_next_send_witness :
  let s := handleSaveSettings Sample.boot " VF.DM.key " "" initialState in
  exists r p,
    send_begin (Sample.begin_at 1000) (setInputText "hello" s) = Some (r, p) /\
    awaiting p
    = AwaitFetch
        (mkRequest "user-conv-1000" "VF.DM.key" "production" "hello") /\
    (" VF.DM.key " = "" -> awaiting p = AwaitTimer 2000) /\
    (" VF.DM.key " <> "" ->
     exists req,
       awaiting p = AwaitFetch req /\
       Authorization req = Js.trim " VF.DM.key " /\
       versionID req = Js.or_else (Js.trim "") "production" /\
       payload req = "hello") /\
    (no_id (activeConversationId initialState) = true ->
     messages r = [INITIAL_MESSAGE Sample.boot; userMsg p]) /\
    (no_id (activeConversationId initialState) = false ->
     messages r = (messages initialState ++ [userMsg p])%list).
Proof.
  intros s.
  destruct (send_begin (Sample.begin_at 1000) (setInputText "hello" s))
    as [[r p]|] eqn:E; [|discriminate E].
  exists r, p. split; [reflexivity|].
  split; [vm_compute in E; injection E as <- <-; reflexivity|].
  apply (saved_settings_drive_next_send Sample.boot " VF.DM.key " "" "hello"
           initialState r (Sample.begin_at 1000) p).
  exact E.
Defined.

(** X17. After [handleNewChat] the next send is a first turn again: it
    follows the greeting alone, mints a conversation id from its own clock
    reading and is addressed to the session key made of that id, whatever
    conversation was active before. *)
Theorem new_chat_starts_fresh
    (loaded_at text : string) (s r : AppState) (b : BeginEnv) (p : Pending) :
  send_begin b (setInputText text (handleNewChat loaded_at s)) = Some (r, p) ->
  messages r = [INITIAL_MESSAGE loaded_at; userMsg p] /\
  currentConversationId p = "conv-" ++ Js.Number_toString (now_conv b) /\
  conversations r = conversations s /\
  (forall req,
      awaiting p = AwaitFetch req ->
      vfUserId req = "user-conv-" ++ Js.Number_toString (now_conv b)).
Proof.
  intros H.
  assert (M : currentConversationId p
              = "conv-" ++ Js.Number_toString (now_conv b))
    by (apply (begun_minted _ _ _ _ H); reflexivity).
  split; [now rewrite (begun_state _ _ _ _ H)|].
  split; [exact M|].
  split; [now rewrite (begun_state _ _ _ _ H)|].
  intros req A. destruct (begun_request _ _ _ _ _ H A) as [_ ->].
  simpl. now rewrite M.
Qed.

Lemma new_chat_starts_fresh_witness :
  let s := handleSelectConversation "conv-1" "t1" "t2" Sample.live_state in
  exists r p,
    send_begin (Sample.begin_at 7000)
      (setInputText "hello" (handleNewChat Sample.boot s)) = Some (r, p) /\
    messages r = [INITIAL_MESSAGE Sample.boot; userMsg p] /\
    currentConversationId p
    = "conv-" ++ Js.Number_toString (now_conv (Sample.begin_at 7000)) /\
    conversations r = conversations s /\
    (forall req,
        awaiting p = AwaitFetch req ->
        vfUserId req
        = "user-conv-" ++ Js.Number_toString (now_conv (Sample.begin_at 7000))).
Proof.
  intros s.
  destruct (send_begin (Sample.begin_at 7000)
              (setInputText "hello" (handleNewChat Sample.boot s)))
    as [[r p]|] eqn:E; [|discriminate E].
  exists r, p. split; [reflexivity|].
  apply (new_chat_starts_fresh Sample.boot "hello" s r
           (Sample.begin_at 7000) p).
  exact E.
Defined.

(** X18. The send button and the handler agree: the button is disabled
    exactly when the buffer has no character other than white space or a
    send is in flight, and exactly then a send event leaves the session as
    it is.  A key press raises a send only for Enter without Shift, and that
    send meets the same guard, so Enter does nothing while the button is
    disabled. *)
Theorem disabled_send_is_inert
    (loaded_at : string) (x : Session) (b : BeginEnv) :
  sendDisabled (app x) = negb (has_ink (inputText (app x))) || isSending (app x)
  /\
  (sendDisabled (app x) = true <-> step loaded_at (EvSend b) x = x) /\
  (forall key shiftKey ev,
      onKeyDown key shiftKey b = Some ev ->
      key = "Enter" /\ shiftKey = false /\
      (sendDisabled (app x) = true <-> step loaded_at ev x = x)).
Proof.
  assert (G : sendDisabled (app x) = true <-> step loaded_at (EvSend b) x = x).
  { simpl. destruct (send_begin b (app x)) as [[s1 p]|] eqn:E.
    - destruct (begun_guard _ _ _ _ E) as [Ht Hs].
      unfold sendDisabled. rewrite Ht, Hs. split; [discriminate|].
      intros Heq. apply (f_equal (fun y => length (inflight y))) in Heq.
      simpl in Heq. rewrite length_app in Heq. simpl in Heq. lia.
    - split; [reflexivity|]. intros _.
      apply send_begin_guard in E. unfold sendDisabled.
      destruct E as [-> | ->]; [reflexivity | apply orb_true_r]. }
  split; [unfold sendDisabled; now rewrite truthy_trim|].
  split; [exact G|].
  intros key shiftKey ev. unfold onKeyDown.
  destruct (String.eqb_spec key "Enter") as [->|]; [|discriminate].
  destruct shiftKey; [discriminate|]. simpl. intros [= <-].
  split; [reflexivity|]. split; [reflexivity | exact G].
Qed.

(** X19. The voice input appends to the buffer: a transcript goes in as it
    is when the buffer is empty and after one space otherwise, so the buffer
    has a character other than white space afterwards exactly when it had
    one before or the transcript has one, and then only a send in flight
    keeps the button disabled. *)
Theorem voice_transcript_appends (text : string) (s : AppState) :
  let s' := onTranscript text s in
  (inputText s = "" -> inputText s' = text) /\
  (inputText s <> "" -> inputText s' = inputText s ++ " " ++ text) /\
  has_ink (inputText s') = has_ink (inputText s) || has_ink text /\
  sendDisabled s'
  = negb (has_ink (inputText s) || has_ink text) || isSending s /\
  messages s' = messages s.
Proof.
  intros s'.
  assert (E : inputText s'
              = inputText s
                ++ (if Js.truthy (inputText s) then " " else "") ++ text)
    by reflexivity.
  assert (I : has_ink (inputText s') = has_ink (inputText s) || has_ink text).
  { rewrite E, !has_ink_append.
    destruct (Js.truthy (inputText s)); reflexivity. }
  split; [|split; [|split; [exact I | split; [|reflexivity]]]].
  - intros H0. rewrite E, H0. reflexivity.
  - intros Hne. rewrite E.
    destruct (inputText s); [contradiction | reflexivity].
  - unfold sendDisabled. now rewrite truthy_trim, I.
Qed.

(** X20. The live-mode marker of the view ([!!apiKey]) tells how a send
    that gets past the guard is served: when it is on the call awaits a
    request to the dialogue service, when it is off the call awaits the
    mock timer. *)
Theorem live_indicator_matches_mode
    (s s1 : AppState) (b : BeginEnv) (p : Pending) :
  send_begin b s = Some (s1, p) ->
  (hasApiKey s = true <-> exists req, awaiting p = AwaitFetch req) /\
  (hasApiKey s = false <-> awaiting p = AwaitTimer 2000) /\
  hasApiKey s1 = hasApiKey s.
Proof.
  intros H. unfold hasApiKey.
  assert (F : apiKey s1 = apiKey s) by now rewrite (begun_state _ _ _ _ H).
  rewrite F. destruct (Js.truthy (apiKey s)) eqn:Hk.
  - rewrite (begun_live _ _ _ _ H Hk).
    repeat split; eauto; discriminate.
  - rewrite (begun_mock _ _ _ _ H Hk).
    repeat split; try discriminate. intros [req A]. discriminate A.
Qed.

Lemma live_indicator_matches_mode_witness :
  let s1 := fst Sample.mock_begun in
  let p := snd Sample.mock_begun in
  hasApiKey Sample.mock_state = false /\
  (hasApiKey Sample.mock_state = true <->
   exists req, awaiting p = AwaitFetch req) /\
  (hasApiKey Sample.mock_state = false <-> awaiting p = AwaitTimer 2000) /\
  hasApiKey s1 = hasApiKey Sample.mock_state.
Proof.
  intros s1 p. split; [reflexivity|].
  apply (live_indicator_matches_mode Sample.mock_state s1
           (Sample.begin_at 1000) p).
  reflexivity.
Defined.

(** X21. Toggling the theme flips the theme flag and writes nothing else;
    toggling twice gives the state back. *)
Theorem toggleTheme_involutive (s : AppState) :
  toggleTheme (toggleTheme s) = s /\
  isDarkMode (toggleTheme s) = negb (isDarkMode s) /\
  setIsDarkMode (isDarkMode s) (toggleTheme s) = s.
Proof.
  destruct s as [u l c a m i sd sb dk so k v]. unfold toggleTheme. simpl.
  split; [now rewrite negb_involutive|]. split; reflexivity.
Qed.

(** ** Login, logout and the conversation switch *)

(** X22. Signing in and out again is a round trip on the signed-out state:
    from a state with no user, no login pending, an empty registry, an empty
    transcript and no active conversation, the login click, its timer and a
    logout give the state back.  In between the user is the fixed staff
    profile and the registry holds the one seeded conversation. *)
Theorem login_logout_round_trip (iso : string) (s : AppState) :
  user s = None ->
  isLoginLoading s = false ->
  conversations s = [] ->
  messages s = [] ->
  activeConversationId s = None ->
  let signed_in := handleLogin_timeout iso (handleLogin s) in
  isLoginLoading (handleLogin s) = true /\
  user signed_in = Some MOCK_USER /\
  isLoginLoading signed_in = false /\
  map Conversation.id (conversations signed_in) = ["conv-1"] /\
  handleLogout signed_in = s.
Proof.
  destruct s as [u l c a m i sd sb dk so k v]. simpl.
  intros -> -> -> -> ->. repeat split.
Qed.

Lemma login_logout_round_trip_witness :
  let signed_in :=
    handleLogin_timeout Sample.boot (handleLogin Sample.live_state) in
  isLoginLoading (handleLogin Sample.live_state) = true /\
  user signed_in = Some MOCK_USER /\
  isLoginLoading signed_in = false /\
  map Conversation.id (conversations signed_in) = ["conv-1"] /\
  handleLogout signed_in = Sample.live_state.
Proof.
  apply (login_logout_round_trip Sample.boot Sample.live_state);
    reflexivity.
Defined.

(** X23. A conversation switch and a new chat replace the transcript
    wholesale: the result does not depend on what the transcript held; of
    two of them in a row, in any combination, the last one wins; a switch
    leaves one user and one assistant placeholder and a new chat the
    greeting alone; and neither of the two handlers writes the registry, the
    busy flag or the input buffer. *)
Theorem switch_discards_transcript
    (loaded_at id iso1 iso2 : string) (ms : list Message.t) (s : AppState) :
  let switch := handleSelectConversation id iso1 iso2 in
  let fresh := handleNewChat loaded_at in
  (switch (setMessages ms s) = switch s /\
   fresh (setMessages ms s) = fresh s) /\
  ((forall id' iso1' iso2',
       switch (handleSelectConversation id' iso1' iso2' s) = switch s) /\
   fresh (switch s) = fresh s /\
   switch (fresh s) = switch s /\
   fresh (fresh s) = fresh s) /\
  (map Message.role (messages (switch s)) = [Role.user; Role.assistant] /\
   ids (messages (switch s)) = ["hist-" ++ id ++ "-1"; "hist-" ++ id ++ "-2"]
   /\
   messages (fresh s) = [INITIAL_MESSAGE loaded_at]) /\
  (conversations (switch s) = conversations s /\
   isSending (switch s) = isSending s /\
   inputText (switch s) = inputText s) /\
  (conversations (fresh s) = conversations s /\
   isSending (fresh s) = isSending s /\
   inputText (fresh s) = inputText s).
Proof.
  intros switch fresh. unfold switch, fresh.
  split; [split; reflexivity|].
  split; [repeat split|].
  split; [repeat split|].
  split; repeat split.
Qed.

(** ** The ids of one call *)

(** X24. The two messages of one call get the same id exactly when the
    clock reads one millisecond less at the reply than it did at the start:
    with a clock that does not go back they always differ. *)
Theorem call_ids_collide_iff
    (s s1 : AppState) (b : BeginEnv) (p : Pending) (e : SettleEnv) :
  send_begin b s = Some (s1, p) ->
  (Message.id (reply_message p e) = Message.id (userMsg p) <->
   now_reply e + 1 = now_user b) /\
  (now_user b <= now_reply e ->
   NoDup (ids [userMsg p; reply_message p e])).
Proof.
  intros H. rewrite (begun_userMsg _ _ _ _ H). simpl.
  assert (G : Js.Number_toString (now_reply e + 1)
              = Js.Number_toString (now_user b)
              <-> now_reply e + 1 = now_user b).
  { split; [apply JsFacts.Number_toString_inj | now intros ->]. }
  split; [exact G|]. intros Hle.
  apply NoDup_cons; [|repeat constructor; intros []].
  intros [Heq|[]]. apply G in Heq. lia.
Qed.

Lemma call_ids_collide_iff_witness :
  let p := snd Sample.live_begun in
  let e := Sample.settle_at 999 Sample.unauthorized in
  Message.id (reply_message p e) = Message.id (userMsg p) /\
  (Message.id (reply_message p e) = Message.id (userMsg p) <->
   now_reply e + 1 = now_user (Sample.begin_at 1000)) /\
  (now_user (Sample.begin_at 1000) <= now_reply e ->
   NoDup (ids [userMsg p; reply_message p e])).
Proof.
  intros p e. split; [reflexivity|].
  apply (call_ids_collide_iff Sample.live_state (fst Sample.live_begun)
           (Sample.begin_at 1000) p e).
  reflexivity.
Defined.

(** ** When the ids stay distinct *)

(** X25. A sufficient condition for distinct ids.  Start from a transcript
    whose ids are distinct and none of which is the decimal form of a number
    from a bound on.  If, along the events of a session, every id that is
    actually stamped on a message is at or above the bound of the moment,
    the bound moving to one past each stamped id, then the ids of the
    transcript are pairwise distinct at the end: the ids that do not come
    from the clock (the greeting and the placeholders of a switch) never
    meet a stamped one. *)
Theorem ids_unique_when_stamps_ascend
    (loaded_at : string) (evs : list Event) (x : Session) (lo : Z) :
  NoDup (ids (messages (app x))) ->
  ids_below lo (messages (app x)) ->
  stamps_ascend loaded_at lo evs x ->
  NoDup (ids (messages (app (run loaded_at evs x)))).
Proof.
  revert x lo.
  induction evs as [|ev evs IH]; intros x lo Hnd Hb Hc; [exact Hnd|].
  assert (Hinit : NoDup (ids [INITIAL_MESSAGE loaded_at]) /\
                  ids_below lo [INITIAL_MESSAGE loaded_at]).
  { split; [repeat constructor; intros []|].
    intros m z [<-|[]] _. apply initial_id_not_a_number. }
  change (run loaded_at (ev :: evs) x)
    with (run loaded_at evs (step loaded_at ev x)).
  destruct ev; cbn [stamps_ascend] in Hc;
    try (apply (IH _ lo); assumption).
  - (* logout *)
    apply (IH _ lo); [constructor | apply ids_below_nil | exact Hc].
  - (* new chat *)
    apply (IH _ lo); [apply Hinit | apply Hinit | exact Hc].
  - (* select a conversation *)
    apply (IH _ lo); [| | exact Hc]; simpl.
    + apply NoDup_cons; [|repeat constructor; intros []].
      intros [Heq|[]].
      injection Heq as Heq. apply JsFacts.append_inv_head in Heq.
      discriminate Heq.
    + intros m z [<-|[<-|[]]] _; apply hist_id_not_a_number.
  - (* save settings *)
    apply (IH _ lo); [| | exact Hc]; simpl; unfold handleSaveSettings;
      destruct (no_id (activeConversationId (app x))); simpl;
      solve [apply Hinit | assumption].
  - (* send *)
    destruct (send_begin b (app x)) as [[s1 p]|] eqn:E.
    + destruct Hc as [Hle Hc].
      assert (A : NoDup (ids (messages s1)) /\
                  ids_below (now_user b + 1) (messages s1)).
      { rewrite (begun_state _ _ _ _ E). simpl.
        apply (append_stamped lo (now_user b)); auto.
        now rewrite (begun_userMsg _ _ _ _ E). }
      apply (IH _ (now_user b + 1)); [| | exact Hc];
        simpl; rewrite E; apply A.
    + apply (IH _ lo); [| | exact Hc]; simpl; rewrite E; assumption.
  - (* settle *)
    destruct (nth_error (inflight x) k) as [p|] eqn:E.
    + destruct Hc as [Hle Hc].
      assert (A : NoDup (ids (messages (send_settle p e (app x)))) /\
                  ids_below (now_reply e + 1 + 1)
                    (messages (send_settle p e (app x)))).
      { rewrite settle_messages.
        apply (append_stamped lo (now_reply e + 1)); auto. }
      replace (now_reply e + 1 + 1) with (now_reply e + 2) in A by lia.
      apply (IH _ (now_reply e + 2)); [| | exact Hc];
        unfold step; rewrite E; apply A.
    + apply (IH _ lo); [| | exact Hc]; unfold step; rewrite E; assumption.
Qed.

Lemma ids_unique_when_stamps_ascend_witness :
  let evs :=
    [ EvNewChat;
      EvInput "hello";
      EvSend (Sample.begin_at 1000);
      EvSend (Sample.begin_at 1);
      EvSettle 0 (Sample.settle_at 3000 (OkJson []));
      EvInput "and then?";
      EvSend (Sample.begin_at 3002);
      EvSettle 0 (Sample.settle_at 5002 (OkJson [])) ] in
  NoDup (ids (messages (app initialSession))) /\
  ids_below 0 (messages (app initialSession)) /\
  stamps_ascend Sample.boot 0 evs initialSession /\
  ids (messages (app (run Sample.boot evs initialSession)))
  = ["msg-0"; "1000"; "3001"; "3002"; "5003"] /\
  NoDup (ids (messages (app (run Sample.boot evs initialSession)))).
Proof.
  intros evs.
  split; [constructor|]. split; [apply ids_below_nil|].
  split; [vm_compute; repeat split; discriminate|]. split; [reflexivity|].
  apply (ids_unique_when_stamps_ascend Sample.boot evs initialSession 0);
    [constructor | apply ids_below_nil |
     vm_compute; repeat split; discriminate].
Defined.
